(** * TabViewPagerPan: the pan-gesture pager of react-native-tab-view

    A shallow embedding of [src/TabViewPagerPan.js] and the properties of
    its gesture classifier, drag tracker, commit resolver and transition
    driver.

    Layout of the development:
    - [Num]: the numbers the component computes with;
    - the data model (props, gesture samples, the shared offset cell);
    - a small state monad for the component instance and its collaborators;
    - the methods of the class, one definition per method;
    - the gesture protocol as a list of events;
    - lemmas and the theorems about the component. *)

From Stdlib Require Import QArith Qcanon Qcabs.
From Stdlib Require Import Lqa.
From stdpp Require Import base option list numbers strings gmap.

Set Default Proof Using "Type".

(** ** Numbers

    A JavaScript number is modelled as an exact rational, or one of the
    three special values that the divisions of the source can produce:
    [NaN] and the two infinities.  Finite arithmetic is exact (the rounding
    of binary64 is not modelled) and a negative zero is not told apart from
    zero: every divisor of the source that can be zero is a [Math.abs] or a
    layout width. *)
Module Num.

Inductive number : Type :=
| NaN
| NInf
| Fin (q : Qc)
| PInf.

Definition of_Z (z : Z) : number := Fin (Qc_of_Z z).
Definition of_nat (n : nat) : number := of_Z (Z.of_nat n).
Definition of_Q (q : Q) : number := Fin (Q2Qc q).

Definition zero : number := of_Z 0.
Definition one : number := of_Z 1.

Definition is_nan (a : number) : bool :=
  match a with NaN => true | _ => false end.

Definition is_infinite (a : number) : bool :=
  match a with NInf | PInf => true | _ => false end.

(** The sign of a rational as a comparison with zero. *)
Definition Qcsgn (q : Qc) : comparison := (q ?= Qc_of_Z 0)%Qc.

(** [-a] *)
Definition neg (a : number) : number :=
  match a with
  | NaN => NaN
  | NInf => PInf
  | PInf => NInf
  | Fin q => Fin (- q)%Qc
  end.

(** [Math.abs(a)] *)
Definition abs (a : number) : number :=
  match a with
  | NaN => NaN
  | NInf | PInf => PInf
  | Fin q => Fin (Qcabs q)
  end.

(** [Math.sign(a)] *)
Definition sign (a : number) : number :=
  match a with
  | NaN => NaN
  | NInf => of_Z (-1)
  | PInf => of_Z 1
  | Fin q => match Qcsgn q with
             | Lt => of_Z (-1)
             | Eq => of_Z 0
             | Gt => of_Z 1
             end
  end.

(** [a - b] *)
Definition sub (a b : number) : number :=
  match a, b with
  | NaN, _ | _, NaN => NaN
  | PInf, PInf | NInf, NInf => NaN
  | PInf, _ | _, NInf => PInf
  | NInf, _ | _, PInf => NInf
  | Fin p, Fin q => Fin (p - q)%Qc
  end.

(** [a * b] *)
Definition mul (a b : number) : number :=
  match a, b with
  | NaN, _ | _, NaN => NaN
  | Fin p, Fin q => Fin (p * q)%Qc
  | PInf, PInf | NInf, NInf => PInf
  | PInf, NInf | NInf, PInf => NInf
  | PInf, Fin q | Fin q, PInf =>
      match Qcsgn q with Lt => NInf | Eq => NaN | Gt => PInf end
  | NInf, Fin q | Fin q, NInf =>
      match Qcsgn q with Lt => PInf | Eq => NaN | Gt => NInf end
  end.

(** [a / b]: a finite value over zero is an infinity of the sign of the
    numerator, zero over zero is [NaN]. *)
Definition div (a b : number) : number :=
  match a, b with
  | NaN, _ | _, NaN => NaN
  | (PInf | NInf), (PInf | NInf) => NaN
  | PInf, Fin q => match Qcsgn q with Lt => NInf | _ => PInf end
  | NInf, Fin q => match Qcsgn q with Lt => PInf | _ => NInf end
  | Fin _, (PInf | NInf) => zero
  | Fin p, Fin q =>
      match Qcsgn q with
      | Eq => match Qcsgn p with Lt => NInf | Eq => NaN | Gt => PInf end
      | _ => Fin (p / q)%Qc
      end
  end.

(** The order of two numbers; [None] when one of them is [NaN]. *)
Definition compare (a b : number) : option comparison :=
  match a, b with
  | NaN, _ | _, NaN => None
  | NInf, NInf | PInf, PInf => Some Eq
  | NInf, _ | _, PInf => Some Lt
  | PInf, _ | _, NInf => Some Gt
  | Fin p, Fin q => Some (p ?= q)%Qc
  end.

(** [a < b], [a <= b], [a > b], [a >= b], [a === b], [a !== b] *)
Definition ltb (a b : number) : bool :=
  match compare a b with Some Lt => true | _ => false end.
Definition leb (a b : number) : bool :=
  match compare a b with Some (Lt | Eq) => true | _ => false end.
Definition gtb (a b : number) : bool := ltb b a.
Definition geb (a b : number) : bool := leb b a.
Definition eqb (a b : number) : bool :=
  match compare a b with Some Eq => true | _ => false end.
Definition neqb (a b : number) : bool := negb (eqb a b).

(** Structural equality of two numbers as a boolean ([NaN] equals itself
    here, unlike [eqb]). *)
Definition same (a b : number) : bool :=
  match a, b with
  | NaN, NaN | NInf, NInf | PInf, PInf => true
  | Fin p, Fin q => Qc_eq_bool p q
  | _, _ => false
  end.

End Num.
Export Num.

Declare Scope num_scope.
Delimit Scope num_scope with num.
Bind Scope num_scope with number.
Infix "-" := Num.sub : num_scope.
Infix "*" := Num.mul : num_scope.
Infix "/" := Num.div : num_scope.
Infix "<?" := Num.ltb : num_scope.
Infix "<=?" := Num.leb : num_scope.
Infix ">?" := Num.gtb : num_scope.
Infix ">=?" := Num.geb : num_scope.
Infix "=?" := Num.eqb : num_scope.

(** ** Data model *)

Inductive OS := android | ios.

(** A route is an opaque record; the pager only reads [routes.length]. *)
Record Route := { key : string }.

Record NavigationState := {
  index : number;
  routes : list Route;
}.

Record Layout := {
  width : number;
  height : number;
}.

(** [GestureState] of the pan responder: cumulative displacement and the
    current velocity on both axes. *)
Record GestureState := {
  dx : number;
  dy : number;
  vx : number;
  vy : number;
}.

Record TransitionProps := { position : number }.

(** The values of an animation configuration object. *)
Inductive ConfigValue :=
| CNum (n : number)
| CBool (b : bool).

(** The animation function of a transition specification; the component
    never looks inside it. *)
Inductive Timing :=
| Animated_spring
| Animated_timing
| CustomTiming (name : string).

(** [{ timing, ...transitionConfig }] *)
Record TransitionSpec := {
  timing : Timing;
  transitionConfig : gmap string ConfigValue;
}.

Definition TransitionConfigurator : Type :=
  TransitionProps -> TransitionProps -> option TransitionSpec.

(** The props of the component.  [swipeEnabled] is optional, and
    [configureTransition] is tested for truthiness before it is called. *)
Record Props := {
  navigationState : NavigationState;
  layout : Layout;
  configureTransition : option TransitionConfigurator;
  swipeEnabled : option bool;
  swipeDistanceThreshold : number;
  swipeVelocityThreshold : number;
}.

Definition DefaultTransitionSpec : TransitionSpec := {|
  timing := Animated_spring;
  transitionConfig :=
    <["tension" := CNum (of_Z 300)]>
      (<["friction" := CNum (of_Z 35)]>
         (<["useNativeDriver" := CBool true]> ∅));
|}.

Definition DEAD_ZONE : number := of_Z 12.

(** [static defaultProps], completed with a navigation state and a layout. *)
Definition defaultProps (nav : NavigationState) (l : Layout) : Props := {|
  navigationState := nav;
  layout := l;
  configureTransition := Some (fun _ _ => Some DefaultTransitionSpec);
  swipeEnabled := None;
  swipeDistanceThreshold := of_Z 120;
  swipeVelocityThreshold := of_Q (1 # 4);
|}.

(** *** The shared offset cell

    [props.offset] is an animated value owned by the caller.  The component
    uses four of its operations: [setValue], [stopAnimation], the start of
    an animation on it, and the listener registered in
    [componentWillMount].  The cell holds its current value and the
    animation in flight, if any. *)
Record Animation := {
  anim_timing : Timing;
  anim_config : gmap string ConfigValue;
}.

Record AnimatedValue := {
  av_value : number;
  av_animation : option Animation;
}.

(** The calls the component makes on its collaborators. *)
Inductive Effect :=
| SetValue (v : number)
| StartAnimation (a : Animation)
| StopAnimation
| JumpToIndex (n : number).

(** The instance fields of the class. *)
Record Fields := {
  _lastOffset : number;
  _lastValue : option number;
  _isMoving : option bool;
  _startDirection : number;
}.

(** The state the methods run in: the instance fields, the shared offset
    cell, and the calls made so far, most recent first. *)
Record World := {
  self : Fields;
  offset : AnimatedValue;
  calls : list Effect;
}.

(** ** The state monad of the methods *)

Definition M (A : Type) : Type := World -> A * World.

Definition ret {A} (a : A) : M A := fun w => (a, w).
Definition bind {A B} (m : M A) (k : A -> M B) : M B :=
  fun w => let (a, w') := m w in k a w'.

Notation "x <- m ;; k" := (bind m (fun x => k))
  (at level 100, m at next level, right associativity).
Notation "m ;;; k" := (bind m (fun _ => k))
  (at level 100, right associativity).

Definition gets {A} (f : World -> A) : M A := fun w => (f w, w).
Definition modify (f : World -> World) : M unit := fun w => (tt, f w).
Definition when (b : bool) (m : M unit) : M unit := if b then m else ret tt.

Definition exec {A} (m : M A) (w : World) : World := snd (m w).
Definition eval {A} (m : M A) (w : World) : A := fst (m w).

Definition set_fields (f : Fields -> Fields) (w : World) : World :=
  {| self := f (self w); offset := offset w; calls := calls w |}.
Definition set_offset (f : AnimatedValue -> AnimatedValue) (w : World) : World :=
  {| self := self w; offset := f (offset w); calls := calls w |}.
Definition log (e : Effect) : M unit :=
  modify (fun w => {| self := self w; offset := offset w; calls := e :: calls w |}).

Definition set_lastOffset (v : number) (s : Fields) : Fields :=
  {| _lastOffset := v; _lastValue := _lastValue s;
     _isMoving := _isMoving s; _startDirection := _startDirection s |}.
Definition set_lastValue (v : option number) (s : Fields) : Fields :=
  {| _lastOffset := _lastOffset s; _lastValue := v;
     _isMoving := _isMoving s; _startDirection := _startDirection s |}.
Definition set_isMoving (b : option bool) (s : Fields) : Fields :=
  {| _lastOffset := _lastOffset s; _lastValue := _lastValue s;
     _isMoving := b; _startDirection := _startDirection s |}.
Definition set_startDirection (v : number) (s : Fields) : Fields :=
  {| _lastOffset := _lastOffset s; _lastValue := _lastValue s;
     _isMoving := _isMoving s; _startDirection := v |}.

(** Truthiness of a field that holds [null] or a boolean. *)
Definition truthy (b : option bool) : bool :=
  match b with Some true => true | _ => false end.

(** ** The component *)

Section TabViewPagerPan.

Variable Platform_OS : OS.
Variable props : Props.

(** [_trackOffset = (e) => { this._lastOffset = e.value; }] *)
Definition _trackOffset (e_value : number) : M unit :=
  modify (set_fields (set_lastOffset e_value)).

(** [this.props.offset.setValue(v)]: the cell takes the value, an
    animation in flight is dropped, and the listener registered in
    [componentWillMount] is called with the new value. *)
Definition offset_setValue (v : number) : M unit :=
  log (SetValue v) ;;;
  modify (set_offset (fun _ => {| av_value := v; av_animation := None |})) ;;;
  _trackOffset v.

(** [this.props.offset.stopAnimation(callback)]: the animation in flight
    is dropped and the callback receives the current value. *)
Definition offset_stopAnimation (callback : number -> M unit) : M unit :=
  log StopAnimation ;;;
  modify (set_offset (fun c => {| av_value := av_value c; av_animation := None |})) ;;;
  value <- gets (fun w => av_value (offset w)) ;;
  callback value.

(** [timing(this.props.offset, config).start()]: the animation is
    recorded as in flight; the value moves on later frames. *)
Definition offset_startAnimation (t : Timing) (config : gmap string ConfigValue) : M unit :=
  let a := {| anim_timing := t; anim_config := config |} in
  log (StartAnimation a) ;;;
  modify (set_offset (fun c => {| av_value := av_value c; av_animation := Some a |})).

(** [this.props.jumpToIndex(n)]: a request to the owner of the
    navigation state. *)
Definition jumpToIndex (n : number) : M unit := log (JumpToIndex n).

Definition _transitionTo (fromValue toValue : number) : M unit :=
  let currentTransitionProps := {| position := fromValue |} in
  let nextTransitionProps := {| position := toValue |} in
  let transitionSpec :=
    match configureTransition props with
    | Some configure => configure currentTransitionProps nextTransitionProps
    | None => None
    end in
  match transitionSpec with
  | Some spec =>
      offset_startAnimation (timing spec)
        (<["toValue" := CNum toValue]> (transitionConfig spec))
  | None => offset_setValue toValue
  end.

Definition _isIndexInRange (i : number) : bool :=
  let routes := routes (navigationState props) in
  (i >=? zero)%num && (i <=? of_nat (length routes) - one)%num.

Definition _isMovingHorzontally (gestureState : GestureState) : bool :=
  (abs (dx gestureState) >? abs (dy gestureState * of_Z 3))%num &&
  (abs (vx gestureState) >? abs (vy gestureState * of_Z 3))%num.

Definition _isReverseDirection (gestureState : GestureState) : M bool :=
  startDirection <- gets (fun w => _startDirection (self w)) ;;
  if (startDirection >? zero)%num
  then ret (vx gestureState <? zero)%num
  else ret (vx gestureState >? zero)%num.

Definition _getNextIndex (gestureState : GestureState) : number :=
  let index := index (navigationState props) in
  let swipeVelocityThreshold := swipeVelocityThreshold props in
  let swipeVelocityThreshold :=
    match Platform_OS with
    | android => (swipeVelocityThreshold / of_Z 1000000)%num
    | ios => swipeVelocityThreshold
    end in
  if (abs (dx gestureState) >? swipeDistanceThreshold props)%num ||
     (abs (vx gestureState) >? swipeVelocityThreshold)%num
  then
    let nextIndex := (index - dx gestureState / abs (dx gestureState))%num in
    if _isIndexInRange nextIndex then nextIndex else index
  else index.

Definition _canMoveScreen (gestureState : GestureState) : M bool :=
  match swipeEnabled props with
  | Some false => ret false
  | _ =>
      let routes := routes (navigationState props) in
      let index := index (navigationState props) in
      let canMove :=
        _isMovingHorzontally gestureState &&
        (((dx gestureState >=? DEAD_ZONE)%num && (index >=? zero)%num) ||
         ((dx gestureState <=? neg DEAD_ZONE)%num &&
          (index <=? of_nat (length routes) - one)%num)) in
      when canMove
        (modify (set_fields (set_startDirection (dx gestureState)))) ;;;
      ret canMove
  end.

Definition _startGesture : M unit :=
  offset_stopAnimation (fun value =>
    modify (set_fields (set_lastValue (Some value)))).

Definition _respondToGesture (gestureState : GestureState) : M unit :=
  let width := width (layout props) in
  lastValue <- gets (fun w => _lastValue (self w)) ;;
  let currentPosition :=
    match lastValue with
    | Some v => v
    | None => index (navigationState props)
    end in
  let nextPosition := (currentPosition - dx gestureState / width)%num in
  isMoving <- gets (fun w => _isMoving (self w)) ;;
  when (match isMoving with None => true | Some _ => false end)
    (modify (set_fields
               (set_isMoving (Some (_isMovingHorzontally gestureState))))) ;;;
  isMoving <- gets (fun w => _isMoving (self w)) ;;
  when (truthy isMoving && _isIndexInRange nextPosition)
    (offset_setValue nextPosition).

Definition _finishGesture (gestureState : GestureState) : M unit :=
  let currentIndex := index (navigationState props) in
  currentValue <- gets (fun w => _lastOffset (self w)) ;;
  when (neqb currentValue currentIndex)
    (isMoving <- gets (fun w => _isMoving (self w)) ;;
     forward <- (if truthy isMoving
                 then reverse <- _isReverseDirection gestureState ;;
                      ret (negb reverse)
                 else ret false) ;;
     if forward
     then jumpToIndex (_getNextIndex gestureState)
     else jumpToIndex currentIndex) ;;;
  modify (set_fields (set_lastValue None)) ;;;
  modify (set_fields (set_isMoving None)).

(** [componentDidUpdate(prevProps)]: a settle from the previous index to
    the current one (the deferral to the next animation frame is not
    modelled). *)
Definition componentDidUpdate (prevProps : Props) : M unit :=
  _transitionTo (index (navigationState prevProps))
                (index (navigationState props)).

(** The state after [componentWillMount]: the listener is registered and
    [_lastOffset] starts at the current index; the other fields hold
    their initial values. *)
Definition componentWillMount (cell : AnimatedValue) : World := {|
  self := {| _lastOffset := index (navigationState props);
             _lastValue := None;
             _isMoving := None;
             _startDirection := zero |};
  offset := cell;
  calls := [];
|}.

(** *** The pan responder protocol

    The handlers the component registers, as events.  [Frame v] is a step
    of the animation engine: it moves the cell to [v] and notifies the
    listener. *)
Inductive Event :=
| MoveShouldSet (g : GestureState)
| Grant
| Move (g : GestureState)
| Release (g : GestureState)
| Terminate (g : GestureState)
| Frame (v : number).

Definition engine_frame (v : number) : M unit :=
  modify (set_offset (fun c => {| av_value := v; av_animation := av_animation c |})) ;;;
  _trackOffset v.

Definition handle (e : Event) : M unit :=
  match e with
  | MoveShouldSet g => _canMoveScreen g ;;; ret tt
  | Grant => _startGesture
  | Move g => _respondToGesture g
  | Release g | Terminate g => _finishGesture g
  | Frame v => engine_frame v
  end.

Fixpoint run (es : list Event) : M unit :=
  match es with
  | [] => ret tt
  | e :: es' => handle e ;;; run es'
  end.

End TabViewPagerPan.

(** ** Derived notions used in the statements *)

(** The candidate offset of a move sample, [currentPosition - dx / width],
    as [_respondToGesture] computes it in world [w]. *)
Definition nextPosition (props : Props) (w : World) (g : GestureState) : number :=
  let currentPosition :=
    match _lastValue (self w) with
    | Some v => v
    | None => index (navigationState props)
    end in
  (currentPosition - dx g / width (layout props))%num.

(** Whether the session counts as a horizontal move once the sample [g]
    has been seen: decided by the first sample, kept afterwards. *)
Definition moving_after (w : World) (g : GestureState) : bool :=
  match _isMoving (self w) with
  | None => _isMovingHorzontally g
  | Some b => b
  end.

(** [v] is a finite value of the interval [[0, n - 1]]. *)
Definition in_range (n : nat) (v : number) : Prop :=
  exists q : Qc,
    v = Fin q /\ (Qc_of_Z 0 <= q)%Qc /\ (q <= Qc_of_Z (Z.of_nat n - 1))%Qc.

(** The values the calls of a log write into the offset, and the indices
    they request. *)
Definition written (l : list Effect) : list number :=
  omap (fun e => match e with SetValue v => Some v | _ => None end) l.
Definition requested (l : list Effect) : list number :=
  omap (fun e => match e with JumpToIndex n => Some n | _ => None end) l.

(** The transition specification [_transitionTo] obtains for a transition
    between two positions, if any. *)
Definition configuredSpec (props : Props) (fromValue toValue : number)
  : option TransitionSpec :=
  match configureTransition props with
  | Some configure =>
      configure {| position := fromValue |} {| position := toValue |}
  | None => None
  end.

(** The velocity threshold [_getNextIndex] compares [|vx|] with. *)
Definition platformThreshold (os : OS) (props : Props) : number :=
  match os with
  | android => (swipeVelocityThreshold props / of_Z 1000000)%num
  | ios => swipeVelocityThreshold props
  end.

(** The commit test of [_getNextIndex]: distance or velocity above its
    threshold. *)
Definition commits (os : OS) (props : Props) (g : GestureState) : bool :=
  (abs (dx g) >? swipeDistanceThreshold props)%num ||
  (abs (vx g) >? platformThreshold os props)%num.

(** *** The specification's reading of the velocity normalization

    The specification describes a function [normalizeVelocity(vx, platform)]
    that divides the raw velocity of one platform by 1,000,000, the result
    being compared with the configured threshold.  [getNextIndex_spec] is
    the commit resolver under that reading. *)
Definition normalizeVelocity (v : number) (platform : OS) : number :=
  match platform with
  | android => (v / of_Z 1000000)%num
  | ios => v
  end.

Definition getNextIndex_spec (platform : OS) (props : Props) (g : GestureState) : number :=
  let index := index (navigationState props) in
  if (abs (dx g) >? swipeDistanceThreshold props)%num ||
     (abs (normalizeVelocity (vx g) platform) >? swipeVelocityThreshold props)%num
  then
    let targetIndex := (index - sign (dx g))%num in
    if _isIndexInRange props targetIndex then targetIndex else index
  else index.

(** A sample with the velocity on the horizontal axis multiplied by [k]. *)
Definition scale_vx (k : number) (g : GestureState) : GestureState :=
  {| dx := dx g; dy := dy g; vx := (vx g * k)%num; vy := vy g |}.

(** *** The specification's reading of the session reset

    The drag session cleared back to the initial values of its three
    fields. *)
Definition session_cleared (s : Fields) : Prop :=
  _lastValue s = None /\ _isMoving s = None /\ _startDirection s = zero.

(** ** Sample inputs *)

Module Sample.

Definition routes3 : list Route :=
  [ {| key := "first" |}; {| key := "second" |}; {| key := "third" |} ].

Definition nav (i : Z) : NavigationState :=
  {| index := of_Z i; routes := routes3 |}.

Definition screen : Layout := {| width := of_Z 320; height := of_Z 480 |}.

(** Three routes, default thresholds (120 and 0.25), a 320 wide screen. *)
Definition props_at (i : Z) : Props := defaultProps (nav i) screen.

(** The same with a transition configurator that returns nothing. *)
Definition props_instant (i : Z) : Props := {|
  navigationState := nav i;
  layout := screen;
  configureTransition := Some (fun _ _ => None);
  swipeEnabled := None;
  swipeDistanceThreshold := of_Z 120;
  swipeVelocityThreshold := of_Q (1 # 4);
|}.

Definition sample (x y : Z) (u v : Q) : GestureState :=
  {| dx := of_Z x; dy := of_Z y; vx := of_Q u; vy := of_Q v |}.

(** A leftward drag of 130 in progress, and its release at rest. *)
Definition drag_left : GestureState := sample (-130) 0 (-1 # 2) 0.
Definition release_left : GestureState := sample (-130) 0 0 0.
(** A leftward drag released while moving back to the right. *)
Definition release_reversed : GestureState := sample (-200) 0 (1 # 2) 0.
(** A long and fast leftward fling. *)
Definition fling_left : GestureState := sample (-400) 0 (-3) 0.
(** A rightward drag of 130. *)
Definition drag_right : GestureState := sample 130 0 (1 # 2) 0.
(** A mostly vertical move. *)
Definition vertical : GestureState := sample 100 150 1 1.
(** A tap. *)
Definition tap : GestureState := sample 0 0 0 0.
(** No displacement left at release, but a velocity above the threshold. *)
Definition flick_at_origin : GestureState := sample 0 0 (-1) 0.
(** A short, slow drag on a platform with small velocity units. *)
Definition slow_android : GestureState := sample (-50) 0 (-1 # 1000000) 0.

Definition settled (i : Z) : AnimatedValue :=
  {| av_value := of_Z i; av_animation := None |}.

(** The component mounted on the first page ... *)
Definition mounted : World := componentWillMount (props_at 0) (settled 0).
(** ... after a leftward drag was claimed, granted and moved once ... *)
Definition drag_session (p : Props) : World :=
  exec (run ios p [MoveShouldSet drag_left; Grant; Move drag_left])
       (componentWillMount p (settled 0)).
Definition dragging : World := drag_session (props_at 0).
(** ... and on the last page, a leftward drag that catches the offset at
    [3/2], while it is still being animated towards the last index. *)
Definition dragging_last : World :=
  exec (run ios (props_at 2)
          [Frame (of_Q (3 # 2)); MoveShouldSet drag_left; Grant; Move drag_left])
       (componentWillMount (props_at 2) (settled 1)).

End Sample.

(** ** Notions for whole gestures *)

(** The component at rest on the current index: the offset and its mirror
    [_lastOffset] both hold the index and no session is open. *)
Definition at_rest (props : Props) (w : World) : Prop :=
  av_value (offset w) = index (navigationState props) /\
  _lastOffset (self w) = index (navigationState props) /\
  _isMoving (self w) = None.

(** [_lastOffset] holds the value of the offset cell. *)
Definition mirrored (w : World) : Prop :=
  _lastOffset (self w) = av_value (offset w).

(** [n] is the current index, or a page next to it that is in range. *)
Definition one_step (props : Props) (n : number) : Prop :=
  n = index (navigationState props) \/
  exists i : Qc,
    index (navigationState props) = Fin i /\
    in_range (length (routes (navigationState props))) n /\
    (n = Fin (i + 1)%Qc \/ n = Fin (i - 1)%Qc).

(** A list of move samples as events. *)
Definition moves (gs : list GestureState) : list Event := map Move gs.

(** More sample inputs. *)
Module Sample2.

(** The props of [Sample.props_at] before the layout is measured. *)
Definition props_unmeasured (i : Z) : Props :=
  defaultProps (Sample.nav i) {| width := zero; height := zero |}.

(** The default props with no route at all. *)
Definition props_empty : Props :=
  defaultProps {| index := zero; routes := [] |} Sample.screen.

(** A sample at rest: displaced, but with no velocity. *)
Definition stationary : GestureState := Sample.sample (-130) 0 0 0.

(** A later sample of the leftward drag. *)
Definition drag_further : GestureState := Sample.sample (-200) 0 (-1 # 2) 0.

(** A release below both default thresholds. *)
Definition release_short : GestureState := Sample.sample (-50) 0 (-1 # 10) 0.

(** A rightward drag released at rest, on the second of the three pages. *)
Definition release_right : GestureState := Sample.sample 130 0 0 0.
Definition mounted_second : World :=
  componentWillMount (Sample.props_at 1) (Sample.settled 1).

(** The component mounted on the last of the three pages. *)
Definition mounted_last : World :=
  componentWillMount (Sample.props_at 2) (Sample.settled 2).

End Sample2.

(** ** Facts about numbers *)

Section NumFacts.

Implicit Types (a b : number) (p q : Qc) (z : Z).

Lemma Qc_of_Z_0 : Qc_of_Z 0 = 0%Qc.
Proof. apply Z2Qc_inj_0. Qed.

Lemma Qcsgn_Lt q : Qcsgn q = Lt <-> (q < 0)%Qc.
Proof. unfold Qcsgn. rewrite Qc_of_Z_0. symmetry. apply Qclt_alt. Qed.

Lemma Qcsgn_Gt q : Qcsgn q = Gt <-> (0 < q)%Qc.
Proof. unfold Qcsgn. rewrite Qc_of_Z_0. symmetry. apply Qcgt_alt. Qed.

Lemma Qcsgn_Eq q : Qcsgn q = Eq <-> q = 0%Qc.
Proof. unfold Qcsgn. rewrite Qc_of_Z_0. symmetry. apply Qceq_alt. Qed.

Lemma Qcsgn_abs q : q <> 0%Qc -> Qcsgn (Qcabs q) = Gt.
Proof.
  intros Hq. apply Qcsgn_Gt.
  destruct (Qcle_lt_or_eq _ _ (Qcabs_nonneg q)) as [H | H]; [exact H |].
  symmetry in H. apply Qcabs_null in H. contradiction.
Qed.

Lemma Qcopp_eq_0 q : (- q)%Qc = 0%Qc -> q = 0%Qc.
Proof.
  intros E. rewrite <- (Qcopp_involutive q), E. apply Qc_is_canon. reflexivity.
Qed.

Lemma Qcdiv_self q : q <> 0%Qc -> (q / q)%Qc = Qc_of_Z 1.
Proof. intros Hq. rewrite Z2Qc_inj_1. field. exact Hq. Qed.

Lemma Qcdiv_opp_self q : q <> 0%Qc -> (q / - q)%Qc = Qc_of_Z (-1).
Proof.
  intros Hq. transitivity (- (1))%Qc.
  - field. intros E. apply Hq, Qcopp_eq_0, E.
  - apply Qc_is_canon. reflexivity.
Qed.

(** Structural equality decides Leibniz equality. *)
Lemma same_eq a b : same a b = true -> a = b.
Proof.
  destruct a, b; simpl; try discriminate; try reflexivity.
  intros H. f_equal. apply Qc_eq_bool_correct, H.
Qed.

Lemma same_refl a : same a a = true.
Proof.
  destruct a; simpl; try reflexivity.
  unfold Qc_eq_bool. destruct (Qcanon.Qc_eq_dec q q); [reflexivity | contradiction].
Qed.

(** *** Comparisons of finite values *)

Lemma ltb_Fin p q : (Fin p <? Fin q)%num = true <-> (p < q)%Qc.
Proof.
  unfold ltb; simpl. rewrite Qclt_alt.
  destruct (p ?= q)%Qc; split; intros H; congruence.
Qed.

Lemma leb_Fin p q : (Fin p <=? Fin q)%num = true <-> (p <= q)%Qc.
Proof.
  unfold leb; simpl. rewrite Qcle_alt.
  destruct (p ?= q)%Qc; split; intros H; congruence.
Qed.

Lemma eqb_Fin p q : (Fin p =? Fin q)%num = true <-> p = q.
Proof.
  unfold eqb; simpl. rewrite Qceq_alt.
  destruct (p ?= q)%Qc; split; intros H; congruence.
Qed.

Lemma gtb_Fin p q : (Fin p >? Fin q)%num = true <-> (q < p)%Qc.
Proof. apply ltb_Fin. Qed.

Lemma geb_Fin p q : (Fin p >=? Fin q)%num = true <-> (q <= p)%Qc.
Proof. apply leb_Fin. Qed.

(** A comparison with [NaN] is false, whatever the other side. *)
Lemma leb_NaN_l a : (NaN <=? a)%num = false.
Proof. reflexivity. Qed.

Lemma leb_NaN_r a : (a <=? NaN)%num = false.
Proof. destruct a; reflexivity. Qed.

Lemma eqb_zero a : (a =? zero)%num = true -> a = zero.
Proof.
  destruct a; try discriminate.
  intros H. apply eqb_Fin in H. subst. reflexivity.
Qed.

Lemma eqb_eq a b : (a =? b)%num = true -> a = b.
Proof.
  destruct a, b; try discriminate; try reflexivity.
  intros H. apply eqb_Fin in H. subst. reflexivity.
Qed.

Lemma ltb_leb a b : (a <? b)%num = true -> (a <=? b)%num = true.
Proof. unfold ltb, leb. destruct (Num.compare a b) as [[]|]; congruence. Qed.

(** *** Arithmetic *)

Lemma of_Z_opp z : neg (of_Z z) = of_Z (- z).
Proof.
  unfold of_Z, neg. f_equal. apply Qc_is_canon.
  unfold Qcopp. cbn [this Q2Qc Qc_of_Z]. rewrite Qred_correct.
  unfold inject_Z, Qopp, Qeq; simpl. reflexivity.
Qed.

Lemma sub_of_Z z1 z2 : (of_Z z1 - of_Z z2)%num = of_Z (z1 - z2).
Proof.
  unfold of_Z, sub. f_equal. apply Qc_is_canon.
  unfold Qcminus, Qcplus, Qcopp. cbn [this Q2Qc Qc_of_Z].
  rewrite !Qred_correct. unfold inject_Z, Qeq; simpl. lia.
Qed.

Lemma sub_zero_r a : (a - zero)%num = a.
Proof.
  destruct a; try reflexivity.
  unfold zero, of_Z, sub. f_equal. rewrite Qc_of_Z_0. ring.
Qed.

Lemma sub_NaN_r a : (a - NaN)%num = NaN.
Proof. destruct a; reflexivity. Qed.

Lemma abs_mul_3 a : abs (a * of_Z 3) = (of_Z 3 * abs a)%num.
Proof.
  destruct a; try reflexivity.
  unfold of_Z, mul, abs. f_equal.
  assert (E : Qcabs (Qc_of_Z 3) = Qc_of_Z 3)
    by (apply Qcabs_pos, Qclt_le_weak; reflexivity).
  rewrite Qcabs_Qcmult, E. apply Qcmult_comm.
Qed.

Lemma abs_mul_million a :
  abs (a * of_Z 1000000) = (abs a * of_Z 1000000)%num.
Proof.
  destruct a; try reflexivity.
  unfold of_Z, mul, abs. f_equal.
  assert (E : Qcabs (Qc_of_Z 1000000) = Qc_of_Z 1000000)
    by (apply Qcabs_pos, Qclt_le_weak; reflexivity).
  rewrite Qcabs_Qcmult, E. reflexivity.
Qed.

(** [dx / Math.abs(dx)] is the sign of a finite non-zero [dx] ... *)
Lemma div_abs_sign q :
  q <> 0%Qc -> (Fin q / abs (Fin q))%num = sign (Fin q).
Proof.
  intros Hq. unfold div, abs, sign.
  rewrite (Qcsgn_abs q Hq).
  destruct (Qcsgn q) eqn:E.
  - apply Qcsgn_Eq in E. contradiction.
  - apply Qcsgn_Lt in E. unfold of_Z. f_equal.
    rewrite (Qcabs_neg q (Qclt_le_weak _ _ E)). apply Qcdiv_opp_self, Hq.
  - apply Qcsgn_Gt in E. unfold of_Z. f_equal.
    rewrite (Qcabs_pos q (Qclt_le_weak _ _ E)). apply Qcdiv_self, Hq.
Qed.

(** ... and [NaN] when [dx] is zero. *)
Lemma div_abs_zero : (zero / abs zero)%num = NaN.
Proof. reflexivity. Qed.

Lemma sign_zero : sign zero = zero.
Proof. reflexivity. Qed.

Lemma sign_neg q : (q < 0)%Qc -> sign (Fin q) = of_Z (-1).
Proof. intros H. unfold sign. apply Qcsgn_Lt in H. rewrite H. reflexivity. Qed.

Lemma sign_pos q : (0 < q)%Qc -> sign (Fin q) = of_Z 1.
Proof. intros H. unfold sign. apply Qcsgn_Gt in H. rewrite H. reflexivity. Qed.

(** Dividing the threshold by a million is multiplying the other side. *)
Lemma Qclt_div_million p q :
  (q / Qc_of_Z 1000000 < p)%Qc <-> (q < p * Qc_of_Z 1000000)%Qc.
Proof.
  unfold Qclt, Qcdiv, Qcmult, Qcinv. cbn [this Q2Qc Qc_of_Z].
  rewrite !Qred_correct.
  set (c := inject_Z 1000000).
  assert (Hc : (0 < c)%Q) by reflexivity.
  split; intros H.
  - apply (Qmult_lt_r _ _ c Hc) in H.
    assert (E : (q * / c * c == q)%Q)
      by (field; intros E; rewrite E in Hc; discriminate).
    rewrite E in H. exact H.
  - apply Qlt_shift_div_r; assumption.
Qed.

Lemma gtb_div_million a b :
  (a >? b / of_Z 1000000)%num = (a * of_Z 1000000 >? b)%num.
Proof.
  destruct a as [| |p|], b as [| |q|]; try reflexivity.
  apply eq_true_iff_eq.
  change (of_Z 1000000) with (Fin (Qc_of_Z 1000000)).
  cbn [div mul]. change (Qcsgn (Qc_of_Z 1000000)) with Gt. cbn iota.
  rewrite !gtb_Fin. apply Qclt_div_million.
Qed.

End NumFacts.

(** ** Facts about the methods *)

Lemma exec_bind {A B} (m : M A) (k : A -> M B) (w : World) :
  exec (bind m k) w = exec (k (eval m w)) (exec m w).
Proof. unfold exec, eval, bind. destruct (m w); reflexivity. Qed.

Lemma eval_bind {A B} (m : M A) (k : A -> M B) (w : World) :
  eval (bind m k) w = eval (k (eval m w)) (exec m w).
Proof. unfold exec, eval, bind. destruct (m w); reflexivity. Qed.

Section MethodFacts.

Variable os : OS.
Variable props : Props.

Local Abbreviation index_ := (index (navigationState props)).
Local Abbreviation count_ := (length (routes (navigationState props))).

(** The range check accepts exactly the finite values of
    [[0, routes.length - 1]]. *)
Lemma _isIndexInRange_spec v :
  _isIndexInRange props v = true <-> in_range count_ v.
Proof.
  unfold _isIndexInRange, in_range, of_nat, one, zero.
  rewrite sub_of_Z, andb_true_iff. split.
  - intros [H0 H1]. destruct v as [| |q|]; try discriminate.
    exists q. split; [reflexivity|]. split.
    + apply (geb_Fin q). exact H0.
    + apply (leb_Fin q). exact H1.
  - intros (q & -> & H0 & H1). split.
    + apply (geb_Fin q), H0.
    + apply (leb_Fin q), H1.
Qed.

Lemma _isIndexInRange_NaN : _isIndexInRange props NaN = false.
Proof. reflexivity. Qed.

(** *** The commit resolver *)

Lemma _getNextIndex_unfold g :
  _getNextIndex os props g =
    if commits os props g
    then let nextIndex := (index_ - dx g / abs (dx g))%num in
         if _isIndexInRange props nextIndex then nextIndex else index_
    else index_.
Proof. unfold _getNextIndex, commits, platformThreshold. destruct os; reflexivity. Qed.

(** Unless the displacement is infinite, the target is
    [index - sign(dx)]. *)
Lemma _getNextIndex_sign g :
  is_infinite (dx g) = false ->
  _getNextIndex os props g =
    if commits os props g && _isIndexInRange props (index_ - sign (dx g))%num
    then (index_ - sign (dx g))%num
    else index_.
Proof.
  intros Hfin. rewrite _getNextIndex_unfold.
  destruct (commits os props g); [|reflexivity]. cbn [andb].
  destruct (dx g) as [| |q|]; try discriminate;
    [cbn [div abs sign]; rewrite sub_NaN_r, _isIndexInRange_NaN; reflexivity|].
  destruct (Qcanon.Qc_eq_dec q 0%Qc) as [-> | Hq].
  - change (Fin 0%Qc / abs (Fin 0%Qc))%num with NaN.
    change (sign (Fin 0%Qc)) with zero.
    rewrite sub_NaN_r, sub_zero_r, _isIndexInRange_NaN.
    destruct (_isIndexInRange props index_); reflexivity.
  - rewrite (div_abs_sign q Hq). reflexivity.
Qed.

(** The resolver answers the current index or an index in range. *)
Lemma _getNextIndex_cases g :
  _getNextIndex os props g = index_ \/
  _isIndexInRange props (_getNextIndex os props g) = true.
Proof.
  rewrite _getNextIndex_unfold.
  destruct (commits os props g); [|left; reflexivity].
  cbn zeta.
  destruct (_isIndexInRange props (index_ - dx g / abs (dx g))%num) eqn:E;
    [right; exact E | left; reflexivity].
Qed.

(** *** Gesture end *)

(** Runs [_finishGesture] on a world split into its fields, along the
    branches of the method. *)
Ltac by_finishGesture_cases w g :=
  destruct w as [[lo lv im sd] cell l];
  unfold _finishGesture, exec, eval, bind, gets, when, _isReverseDirection;
  cbn;
  destruct (neqb lo _); [|reflexivity];
  destruct im as [[]|]; cbn; try reflexivity;
  destruct (sd >? zero)%num; cbn;
  [destruct (vx g <? zero)%num | destruct (vx g >? zero)%num]; reflexivity.

Lemma _finishGesture_calls g w :
  calls (exec (_finishGesture os props g) w) =
    if neqb (_lastOffset (self w)) index_
    then JumpToIndex
           (if truthy (_isMoving (self w)) &&
               negb (eval (_isReverseDirection g) w)
            then _getNextIndex os props g
            else index_) :: calls w
    else calls w.
Proof. by_finishGesture_cases w g. Qed.

Lemma _finishGesture_self g w :
  self (exec (_finishGesture os props g) w) =
    set_isMoving None (set_lastValue None (self w)).
Proof. by_finishGesture_cases w g. Qed.

Lemma _finishGesture_offset g w :
  offset (exec (_finishGesture os props g) w) = offset w.
Proof. by_finishGesture_cases w g. Qed.

Lemma _isReverseDirection_eval g w :
  eval (_isReverseDirection g) w =
    if (_startDirection (self w) >? zero)%num
    then (vx g <? zero)%num
    else (vx g >? zero)%num.
Proof.
  unfold _isReverseDirection, eval, bind, gets; cbn.
  destruct (_startDirection (self w) >? zero)%num; reflexivity.
Qed.

(** *** The drag tracker *)

Lemma _respondToGesture_exec g w :
  exec (_respondToGesture props g) w =
    let w1 := set_fields (set_isMoving (Some (moving_after w g))) w in
    if moving_after w g && _isIndexInRange props (nextPosition props w g)
    then exec (offset_setValue (nextPosition props w g)) w1
    else w1.
Proof.
  destruct w as [[lo lv im sd] cell l].
  unfold _respondToGesture, nextPosition, moving_after, exec, bind, gets, when; cbn.
  destruct im as [[]|]; cbn.
  - destruct (_isIndexInRange props _); reflexivity.
  - reflexivity.
  - destruct (_isMovingHorzontally g); cbn; [|reflexivity].
    destruct (_isIndexInRange props _); reflexivity.
Qed.

Lemma _respondToGesture_calls g w :
  calls (exec (_respondToGesture props g) w) =
    if moving_after w g && _isIndexInRange props (nextPosition props w g)
    then SetValue (nextPosition props w g) :: calls w
    else calls w.
Proof.
  rewrite _respondToGesture_exec. cbn zeta.
  destruct (moving_after w g && _); reflexivity.
Qed.

Lemma _respondToGesture_offset g w :
  offset (exec (_respondToGesture props g) w) =
    if moving_after w g && _isIndexInRange props (nextPosition props w g)
    then {| av_value := nextPosition props w g; av_animation := None |}
    else offset w.
Proof.
  rewrite _respondToGesture_exec. cbn zeta.
  destruct (moving_after w g && _); reflexivity.
Qed.

(** *** The classifier *)

Lemma _canMoveScreen_eval g w :
  eval (_canMoveScreen props g) w =
    match swipeEnabled props with
    | Some false => false
    | _ =>
        _isMovingHorzontally g &&
        (((dx g >=? DEAD_ZONE)%num && (index_ >=? zero)%num) ||
         ((dx g <=? neg DEAD_ZONE)%num &&
          (index_ <=? of_nat count_ - one)%num))
    end.
Proof.
  unfold _canMoveScreen, eval, bind, when.
  destruct (swipeEnabled props) as [[]|]; cbn; try reflexivity;
    destruct (_isMovingHorzontally g && _); reflexivity.
Qed.

Lemma _canMoveScreen_calls g w :
  calls (exec (_canMoveScreen props g) w) = calls w.
Proof.
  unfold _canMoveScreen, exec, bind, when.
  destruct (swipeEnabled props) as [[]|]; cbn; try reflexivity;
    destruct (_isMovingHorzontally g && _); reflexivity.
Qed.

(** A claim records the displacement of the claiming sample, which lies
    beyond the dead zone. *)
Lemma _canMoveScreen_direction g w :
  eval (_canMoveScreen props g) w = true ->
  _startDirection (self (exec (_canMoveScreen props g) w)) = dx g /\
  ((dx g >=? DEAD_ZONE)%num || (dx g <=? neg DEAD_ZONE)%num) = true.
Proof.
  rewrite _canMoveScreen_eval. intros H. split.
  - unfold _canMoveScreen, exec, bind, when.
    destruct (swipeEnabled props) as [[]|]; try discriminate;
      rewrite H; reflexivity.
  - assert (H' : _isMovingHorzontally g &&
                 (((dx g >=? DEAD_ZONE)%num && (index_ >=? zero)%num) ||
                  ((dx g <=? neg DEAD_ZONE)%num &&
                   (index_ <=? of_nat count_ - one)%num)) = true)
      by (destruct (swipeEnabled props) as [[]|]; try discriminate; exact H).
    apply andb_true_iff in H' as [_ H'].
    apply orb_true_iff in H' as [H' | H'];
      apply andb_true_iff in H' as [H' _]; rewrite H';
      auto using orb_true_r.
Qed.

End MethodFacts.

(** ** The numbers at work *)

Example div_by_zero_width :
  (of_Z (-130) / zero)%num = NInf /\ (zero - of_Z (-130) / zero)%num = PInf.
Proof. split; reflexivity. Qed.

Example zero_over_zero : (zero / abs zero)%num = NaN.
Proof. reflexivity. Qed.

Example NaN_is_unordered :
  (NaN >=? zero)%num = false /\ (NaN <=? zero)%num = false /\
  (NaN =? NaN)%num = false /\ neqb NaN NaN = true.
Proof. repeat split; reflexivity. Qed.

Example candidate_of_drag :
  nextPosition (Sample.props_at 0) Sample.mounted Sample.drag_left
    = of_Q (13 # 32).
Proof. apply same_eq. vm_compute. reflexivity. Qed.

Example written_by_drag :
  written (calls Sample.dragging) = [of_Q (13 # 32)].
Proof.
  assert (E : calls Sample.dragging
              = [SetValue (nextPosition (Sample.props_at 0) Sample.mounted
                             Sample.drag_left); StopAnimation])
    by (vm_compute; reflexivity).
  rewrite E, candidate_of_drag. reflexivity.
Qed.

(** ** The drag tracker writes in range *)

Section DragTracker.

Variable os : OS.
Variable props : Props.

Local Abbreviation count_ := (length (routes (navigationState props))).

(** The calls a handler adds to the log write only values in range. *)
Lemma handle_calls e w :
  exists l, calls (exec (handle os props e) w) = l ++ calls w /\
            Forall (in_range count_) (written l).
Proof.
  destruct e as [g | | g | g | g | x]; cbn [handle].
  - exists []. split; [|constructor].
    rewrite exec_bind. apply _canMoveScreen_calls.
  - exists [StopAnimation]. split; [reflexivity | constructor].
  - rewrite _respondToGesture_calls.
    destruct (moving_after w g); cbn [andb];
      [|exists []; split; [reflexivity | constructor]].
    destruct (_isIndexInRange props (nextPosition props w g)) eqn:E;
      [|exists []; split; [reflexivity | constructor]].
    exists [SetValue (nextPosition props w g)]. split; [reflexivity|].
    repeat constructor. apply _isIndexInRange_spec, E.
  - rewrite _finishGesture_calls.
    destruct (neqb _ _);
      [eexists [JumpToIndex _] | exists []]; (split; [reflexivity | constructor]).
  - rewrite _finishGesture_calls.
    destruct (neqb _ _);
      [eexists [JumpToIndex _] | exists []]; (split; [reflexivity | constructor]).
  - exists []. split; [reflexivity | constructor].
Qed.

Lemma written_app l1 l2 : written (l1 ++ l2) = written l1 ++ written l2.
Proof. unfold written. apply omap_app. Qed.

Lemma run_calls es : forall w,
  exists l, calls (exec (run os props es) w) = l ++ calls w /\
            Forall (in_range count_) (written l).
Proof.
  induction es as [| e es IH]; intros w.
  - exists []. split; [reflexivity | constructor].
  - cbn [run]. rewrite exec_bind.
    destruct (IH (exec (handle os props e) w)) as (l2 & E2 & F2).
    destruct (handle_calls e w) as (l1 & E1 & F1).
    exists (l2 ++ l1). split.
    + rewrite E2, E1. apply app_assoc.
    + rewrite written_app. apply Forall_app. split; assumption.
Qed.

End DragTracker.

(** C1. Whatever the sequence of gesture events (claims, grants, move
    samples, releases, terminations, animation frames) and whatever the
    state it starts in, every value the handlers write into the shared
    offset is a finite value of [[0, routes.length - 1]]; and a move sample
    whose candidate offset fails the range check writes nothing: the offset
    cell and the log of calls are left as they were. *)
Theorem C1_drag_tracker_writes_in_range (os : OS) (props : Props) :
  (forall (es : list Event) (w : World),
     exists l : list Effect,
       calls (exec (run os props es) w) = l ++ calls w /\
       Forall (in_range (length (routes (navigationState props)))) (written l))
  /\
  (forall (g : GestureState) (w : World),
     _isIndexInRange props (nextPosition props w g) = false ->
     offset (exec (_respondToGesture props g) w) = offset w /\
     calls (exec (_respondToGesture props g) w) = calls w).
Proof.
  split.
  - intros es w. apply run_calls.
  - intros g w H.
    rewrite _respondToGesture_offset, _respondToGesture_calls, H, andb_false_r.
    split; reflexivity.
Qed.

(** A rightward drag on the first page: the candidate [-13/32] is refused
    and the offset keeps its value. *)
Lemma C1_witness :
  _isIndexInRange (Sample.props_at 0)
    (nextPosition (Sample.props_at 0) Sample.mounted Sample.drag_right) = false /\
  offset (exec (_respondToGesture (Sample.props_at 0) Sample.drag_right) Sample.mounted)
    = offset Sample.mounted.
Proof.
  split; [vm_compute; reflexivity|].
  apply (proj2 (C1_drag_tracker_writes_in_range ios (Sample.props_at 0))).
  vm_compute; reflexivity.
Defined.

(** ** The commit resolver *)

Lemma ltb_asym a b : (a <? b)%num = true -> (b <? a)%num = false.
Proof.
  destruct a as [| |p|], b as [| |q|]; try discriminate; try reflexivity.
  intros H. apply ltb_Fin in H.
  destruct (Fin q <? Fin p)%num eqn:E; [|reflexivity].
  apply ltb_Fin in E. destruct (Qclt_not_le _ _ H). apply Qclt_le_weak, E.
Qed.

Lemma leb_negb_ltb a b :
  is_nan a = false -> is_nan b = false ->
  (a <=? b)%num = negb (b <? a)%num.
Proof.
  destruct a as [| |p|], b as [| |q|]; try discriminate; try reflexivity.
  intros _ _. apply eq_true_iff_eq.
  rewrite leb_Fin, negb_true_iff, <- not_true_iff_false, ltb_Fin.
  apply Qcle_ngt.
Qed.

Lemma succ_out_of_range props :
  _isIndexInRange props
    (of_nat (length (routes (navigationState props))) - one - of_Z (-1))%num = false.
Proof.
  apply not_true_iff_false. intros H.
  apply _isIndexInRange_spec in H as (q & E & _ & H).
  unfold of_nat, one in E. rewrite !sub_of_Z in E. injection E as <-.
  revert H. unfold Qcle. cbn [this Qc_of_Z]. unfold inject_Z, Qle; simpl. lia.
Qed.

(** C2. A released gesture that was recognised as a horizontal move and
    is not reversed, with [_lastOffset] different from the current index
    and a displacement that is not infinite, requests exactly one index: [index -
    sign(dx)] when [|dx|] exceeds the distance threshold or [|vx|] exceeds
    the velocity threshold of the platform and that index is in range, and
    the current index otherwise.  On the last page ([index = routes.length
    - 1]) a leftward release therefore requests the current index, however
    large [|dx|] and [|vx|] are. *)
Theorem C2_commit_target (os : OS) (props : Props) (g : GestureState) (w : World) :
  neqb (_lastOffset (self w)) (index (navigationState props)) = true ->
  _isMoving (self w) = Some true ->
  eval (_isReverseDirection g) w = false ->
  is_infinite (dx g) = false ->
  let index := index (navigationState props) in
  let target := (index - sign (dx g))%num in
  calls (exec (_finishGesture os props g) w) =
    JumpToIndex
      (if ((abs (dx g) >? swipeDistanceThreshold props)%num ||
           (abs (vx g) >? platformThreshold os props)%num) &&
          _isIndexInRange props target
       then target else index) :: calls w
  /\
  (index = (of_nat (length (routes (navigationState props))) - one)%num ->
   (dx g <? zero)%num = true ->
   calls (exec (_finishGesture os props g) w) = JumpToIndex index :: calls w).
Proof.
  intros Hne Hmov Hrev Hfin index target.
  assert (E : calls (exec (_finishGesture os props g) w) =
              JumpToIndex (_getNextIndex os props g) :: calls w).
  { rewrite _finishGesture_calls, Hne, Hmov, Hrev. reflexivity. }
  rewrite E, (_getNextIndex_sign os props g Hfin).
  split; [reflexivity|].
  intros Hlast Hneg. do 2 f_equal.
  destruct (dx g) as [| |q|] eqn:Edx; try discriminate.
  apply (ltb_Fin q) in Hneg. rewrite Qc_of_Z_0 in Hneg.
  rewrite (sign_neg q Hneg).
  fold index. rewrite Hlast, succ_out_of_range, andb_false_r. reflexivity.
Qed.

(** The threshold commit of the specification: with the default distance
    threshold of 120, a release at [dx = -130], [vx = 0] on the first of
    three pages requests index 1; and on the last page a long and fast
    leftward fling requests the last index again. *)
Lemma C2_witness :
  calls (exec (_finishGesture ios (Sample.props_at 0) Sample.release_left)
              Sample.dragging)
    = JumpToIndex (of_Z 1) :: calls Sample.dragging /\
  calls (exec (_finishGesture ios (Sample.props_at 2) Sample.fling_left)
              Sample.dragging_last)
    = JumpToIndex (of_Z 2) :: calls Sample.dragging_last.
Proof.
  split.
  - destruct (C2_commit_target ios (Sample.props_at 0) Sample.release_left
                Sample.dragging) as [E _];
      [vm_compute; reflexivity | vm_compute; reflexivity
      | vm_compute; reflexivity | vm_compute; reflexivity |].
    rewrite E. do 2 f_equal. apply same_eq. vm_compute. reflexivity.
  - destruct (C2_commit_target ios (Sample.props_at 2) Sample.fling_left
                Sample.dragging_last) as [_ E];
      [vm_compute; reflexivity | vm_compute; reflexivity
      | vm_compute; reflexivity | vm_compute; reflexivity |].
    apply E; [apply same_eq | ]; vm_compute; reflexivity.
Defined.

(** ** The classifier *)

Lemma neg_DEAD_ZONE : neg DEAD_ZONE = of_Z (-12).
Proof. apply of_Z_opp. Qed.

Lemma _isMovingHorzontally_spec g :
  _isMovingHorzontally g =
    (abs (dx g) >? of_Z 3 * abs (dy g))%num &&
    (abs (vx g) >? of_Z 3 * abs (vy g))%num.
Proof. unfold _isMovingHorzontally. rewrite !abs_mul_3. reflexivity. Qed.

(** A displacement in the proportion 100 : 150 is not horizontal, whatever
    its scale. *)
Lemma not_horizontal_100_150 (k : Qc) :
  (abs (of_Z 100 * Fin k) >? of_Z 3 * abs (of_Z 150 * Fin k))%num = false.
Proof.
  apply not_true_iff_false. intros H.
  unfold of_Z in H. cbn [mul abs] in H. apply gtb_Fin in H.
  rewrite !Qcabs_Qcmult in H.
  pose proof (Qcabs_nonneg k) as Hk.
  revert H Hk. generalize (Qcabs k). intros a.
  assert (E1 : Qcabs (Qc_of_Z 100) = Qc_of_Z 100)
    by (apply Qcabs_pos, Qclt_le_weak; reflexivity).
  assert (E2 : Qcabs (Qc_of_Z 150) = Qc_of_Z 150)
    by (apply Qcabs_pos, Qclt_le_weak; reflexivity).
  rewrite E1, E2.
  unfold Qclt, Qcle, Qcmult. cbn [this Q2Qc Qc_of_Z]. rewrite !Qred_correct.
  unfold inject_Z. intros H Ha. lra.
Qed.


(** The direction a claim records is never zero: it is negative or
    positive. *)
Lemma claimed_direction props g w :
  eval (_canMoveScreen props g) w = true ->
  let recorded := _startDirection (self (exec (_canMoveScreen props g) w)) in
  (recorded <? zero)%num || (recorded >? zero)%num = true.
Proof.
  intros H. destruct (_canMoveScreen_direction props g w H) as [-> Hd].
  rewrite neg_DEAD_ZONE in Hd. apply orb_true_iff. unfold gtb.
  apply orb_true_iff in Hd as [Hd | Hd].
  - right. destruct (dx g) as [| |q|]; try discriminate; [|reflexivity].
    apply ltb_Fin. apply (geb_Fin q) in Hd.
    apply Qclt_le_trans with (Qc_of_Z 12); [reflexivity | exact Hd].
  - left. destruct (dx g) as [| |q|]; try discriminate; [reflexivity|].
    apply ltb_Fin. apply (leb_Fin q) in Hd.
    apply Qcle_lt_trans with (Qc_of_Z (-12)); [exact Hd | reflexivity].
Qed.

(** ** Direction reversal *)

(** C3. With [_lastOffset] different from the current index, a gesture
    that started leftward and is released with a rightward velocity, or
    started rightward and is released with a leftward velocity, requests the
    current index, whatever [dx] is and whatever the session recorded as
    its kind of move.  For a gesture with a direction and a release
    velocity that is a number, the release is not a reversal exactly when
    [startDirection > 0] and [vx >= 0], or [startDirection < 0] and
    [vx <= 0]; and the gesture end goes forward exactly then: it requests
    the answer of the commit resolver when the session is a horizontal move
    and that condition holds, and the current index otherwise. *)
Theorem C3_reversal_snaps_back (os : OS) (props : Props) (g : GestureState) (w : World) :
  neqb (_lastOffset (self w)) (index (navigationState props)) = true ->
  let startDirection := _startDirection (self w) in
  (((startDirection <? zero)%num && (vx g >? zero)%num) ||
   ((startDirection >? zero)%num && (vx g <? zero)%num) = true ->
   calls (exec (_finishGesture os props g) w) =
     JumpToIndex (index (navigationState props)) :: calls w)
  /\
  ((startDirection <? zero)%num || (startDirection >? zero)%num = true ->
   is_nan (vx g) = false ->
   (eval (_isReverseDirection g) w = false <->
    ((startDirection >? zero)%num && (vx g >=? zero)%num) ||
    ((startDirection <? zero)%num && (vx g <=? zero)%num) = true))
  /\
  ((startDirection <? zero)%num || (startDirection >? zero)%num = true ->
   is_nan (vx g) = false ->
   calls (exec (_finishGesture os props g) w) =
     JumpToIndex
       (if truthy (_isMoving (self w)) &&
           (((startDirection >? zero)%num && (vx g >=? zero)%num) ||
            ((startDirection <? zero)%num && (vx g <=? zero)%num))
        then _getNextIndex os props g
        else index (navigationState props)) :: calls w).
Proof.
  intros Hne sd.
  assert (Hiff : (sd <? zero)%num || (sd >? zero)%num = true ->
                 is_nan (vx g) = false ->
                 negb (eval (_isReverseDirection g) w) =
                   ((sd >? zero)%num && (vx g >=? zero)%num) ||
                   ((sd <? zero)%num && (vx g <=? zero)%num)).
  { intros Hdir Hnan. rewrite _isReverseDirection_eval. fold sd.
    unfold geb. rewrite (leb_negb_ltb zero (vx g) eq_refl Hnan).
    rewrite (leb_negb_ltb (vx g) zero Hnan eq_refl).
    fold (gtb (vx g) zero).
    destruct (sd >? zero)%num eqn:Epos.
    - unfold gtb in Epos. rewrite (ltb_asym _ _ Epos). cbn.
      rewrite orb_false_r. reflexivity.
    - cbn in Hdir. rewrite orb_false_r in Hdir. rewrite Hdir. reflexivity. }
  split; [|split].
  - intros H.
    rewrite _finishGesture_calls, Hne, _isReverseDirection_eval. fold sd.
    assert (R : (if (sd >? zero)%num then (vx g <? zero)%num
                 else (vx g >? zero)%num) = true).
    { apply orb_true_iff in H as [H | H]; apply andb_true_iff in H as [H1 H2].
      - unfold gtb at 1. rewrite (ltb_asym _ _ H1). exact H2.
      - rewrite H1. exact H2. }
    rewrite R, andb_false_r. reflexivity.
  - intros Hdir Hnan. rewrite <- (Hiff Hdir Hnan).
    destruct (eval (_isReverseDirection g) w); cbn; split; congruence.
  - intros Hdir Hnan.
    rewrite _finishGesture_calls, Hne, (Hiff Hdir Hnan). reflexivity.
Qed.

(** A leftward drag of 200 released while moving right: the request is for
    the page the gesture started on.  The same drag released while still
    moving left: the request is the answer of the commit resolver, the next
    page. *)
Lemma C3_witness :
  calls (exec (_finishGesture ios (Sample.props_at 0) Sample.release_reversed)
              Sample.dragging)
    = JumpToIndex (index (navigationState (Sample.props_at 0)))
        :: calls Sample.dragging /\
  calls (exec (_finishGesture ios (Sample.props_at 0) Sample.drag_left)
              Sample.dragging)
    = JumpToIndex (of_Z 1) :: calls Sample.dragging.
Proof.
  split.
  - apply (C3_reversal_snaps_back ios (Sample.props_at 0) Sample.release_reversed
             Sample.dragging); vm_compute; reflexivity.
  - destruct (C3_reversal_snaps_back ios (Sample.props_at 0) Sample.drag_left
                Sample.dragging) as (_ & _ & E); [vm_compute; reflexivity|].
    rewrite E; [|vm_compute; reflexivity|vm_compute; reflexivity].
    do 2 f_equal. apply same_eq. vm_compute. reflexivity.
Defined.

(** C4. The classifier claims a sample only if [|dx| > 3|dy|] and
    [|vx| > 3|vy|] both hold, the displacement is beyond the dead zone
    ([dx >= 12] or [dx <= -12]) and swiping is not disabled.  A sample with
    [dx = 100] and [dy = 150], or any multiple of that displacement, is
    never claimed, whatever its velocity; and nothing is claimed when
    [swipeEnabled] is [false]. *)
Theorem C4_classifier_claims (props : Props) (g : GestureState) (w : World) :
  (eval (_canMoveScreen props g) w = true ->
   (abs (dx g) >? of_Z 3 * abs (dy g))%num = true /\
   (abs (vx g) >? of_Z 3 * abs (vy g))%num = true /\
   ((dx g >=? of_Z 12)%num || (dx g <=? of_Z (-12))%num) = true /\
   swipeEnabled props <> Some false)
  /\
  (forall k : Qc,
     dx g = (of_Z 100 * Fin k)%num -> dy g = (of_Z 150 * Fin k)%num ->
     eval (_canMoveScreen props g) w = false)
  /\
  (dx g = of_Z 100 -> dy g = of_Z 150 ->
   eval (_canMoveScreen props g) w = false)
  /\
  (swipeEnabled props = Some false ->
   eval (_canMoveScreen props g) w = false).
Proof.
  assert (Hscaled : forall k : Qc,
            dx g = (of_Z 100 * Fin k)%num -> dy g = (of_Z 150 * Fin k)%num ->
            eval (_canMoveScreen props g) w = false).
  { intros k Hx Hy. rewrite _canMoveScreen_eval, _isMovingHorzontally_spec.
    rewrite Hx, Hy, not_horizontal_100_150.
    destruct (swipeEnabled props) as [[]|]; reflexivity. }
  split; [|split; [exact Hscaled | split]].
  - intros H. pose proof (_canMoveScreen_direction props g w H) as [_ Hd].
    rewrite neg_DEAD_ZONE in Hd.
    rewrite _canMoveScreen_eval, _isMovingHorzontally_spec in H.
    assert (Hen : swipeEnabled props <> Some false)
      by (intros E; rewrite E in H; discriminate).
    assert (H' : (abs (dx g) >? of_Z 3 * abs (dy g))%num &&
                 (abs (vx g) >? of_Z 3 * abs (vy g))%num = true).
    { destruct (swipeEnabled props) as [[]|]; try discriminate;
        apply andb_true_iff in H as [H _]; exact H. }
    apply andb_true_iff in H' as [H1 H2]. auto.
  - intros Hx Hy. apply (Hscaled (Q2Qc 1)).
    + rewrite Hx. apply same_eq. vm_compute. reflexivity.
    + rewrite Hy. apply same_eq. vm_compute. reflexivity.
  - intros H. rewrite _canMoveScreen_eval, H. reflexivity.
Qed.

(** A leftward drag of 130 is claimed, so it passes the three tests; the
    vertical sample of the specification is not claimed. *)
Lemma C4_witness :
  ((abs (dx Sample.drag_left) >? of_Z 3 * abs (dy Sample.drag_left))%num = true /\
   (abs (vx Sample.drag_left) >? of_Z 3 * abs (vy Sample.drag_left))%num = true /\
   ((dx Sample.drag_left >=? of_Z 12)%num ||
    (dx Sample.drag_left <=? of_Z (-12))%num) = true /\
   swipeEnabled (Sample.props_at 0) <> Some false) /\
  eval (_canMoveScreen (Sample.props_at 0) Sample.vertical) Sample.mounted = false.
Proof.
  split.
  - apply (proj1 (C4_classifier_claims (Sample.props_at 0) Sample.drag_left
                    Sample.mounted)).
    vm_compute. reflexivity.
  - apply (proj1 (proj2 (proj2 (C4_classifier_claims (Sample.props_at 0)
                                   Sample.vertical Sample.mounted))));
      reflexivity.
Defined.

(** ** Velocity normalization *)

(** C5 as stated fails: on Android, with the default thresholds, a short
    drag released at [|vx| = 0.000001] commits to the next page, because
    that velocity exceeds [0.25 / 1000000]; under the reading that divides
    the velocity by 1,000,000 it would stay on the current page. *)
Lemma C5_counterexample :
  (abs (vx Sample.slow_android)
     >? platformThreshold android (Sample.props_at 0))%num = true /\
  (abs (normalizeVelocity (vx Sample.slow_android) android)
     >? swipeVelocityThreshold (Sample.props_at 0))%num = false /\
  _getNextIndex android (Sample.props_at 0) Sample.slow_android = of_Z 1 /\
  getNextIndex_spec android (Sample.props_at 0) Sample.slow_android = of_Z 0 /\
  _getNextIndex android (Sample.props_at 0) Sample.slow_android
    <> getNextIndex_spec android (Sample.props_at 0) Sample.slow_android.
Proof.
  assert (E1 : _getNextIndex android (Sample.props_at 0) Sample.slow_android
               = of_Z 1) by (apply same_eq; vm_compute; reflexivity).
  assert (E2 : getNextIndex_spec android (Sample.props_at 0) Sample.slow_android
               = of_Z 0) by (apply same_eq; vm_compute; reflexivity).
  split; [vm_compute; reflexivity|]. split; [vm_compute; reflexivity|].
  split; [exact E1 | split; [exact E2 |]].
  rewrite E1, E2. intros E. discriminate E.
Qed.

(** C5, amended.  On Android it is the configured velocity threshold that
    is divided by 1,000,000 before the raw [|vx|] is compared with it; the
    decision is the one obtained by multiplying the raw velocity by
    1,000,000 and comparing it with the configured threshold, that is, the
    decision the other platform takes on the sample with the velocity
    scaled up.  On the other platform the raw [|vx|] is compared with the
    configured threshold. *)
Theorem C5_threshold_normalized (props : Props) (g : GestureState) :
  platformThreshold android props = (swipeVelocityThreshold props / of_Z 1000000)%num /\
  platformThreshold ios props = swipeVelocityThreshold props /\
  (abs (vx g) >? platformThreshold android props)%num
    = (abs (vx g) * of_Z 1000000 >? swipeVelocityThreshold props)%num /\
  _getNextIndex android props g
    = _getNextIndex ios props (scale_vx (of_Z 1000000) g) /\
  (forall os : OS,
     _getNextIndex os props g =
       if (abs (dx g) >? swipeDistanceThreshold props)%num ||
          (abs (vx g) >? platformThreshold os props)%num
       then let nextIndex :=
              (index (navigationState props) - dx g / abs (dx g))%num in
            if _isIndexInRange props nextIndex then nextIndex
            else index (navigationState props)
       else index (navigationState props)).
Proof.
  assert (E : (abs (vx g) >? platformThreshold android props)%num
              = (abs (vx g) * of_Z 1000000 >? swipeVelocityThreshold props)%num)
    by apply gtb_div_million.
  split; [reflexivity|]. split; [reflexivity|]. split; [exact E|]. split.
  - rewrite !_getNextIndex_unfold. unfold commits.
    cbn [scale_vx dx vx]. rewrite abs_mul_million, E. reflexivity.
  - intros os. apply _getNextIndex_unfold.
Qed.

(** ** The transition driver *)

Section TransitionDriver.

Variable props : Props.

Lemma _transitionTo_exec fromValue toValue w :
  exec (_transitionTo props fromValue toValue) w =
    match configuredSpec props fromValue toValue with
    | Some spec =>
        exec (offset_startAnimation (timing spec)
                (<["toValue" := CNum toValue]> (transitionConfig spec))) w
    | None => exec (offset_setValue toValue) w
    end.
Proof.
  unfold _transitionTo, configuredSpec.
  destruct (configureTransition props) as [configure|]; [|reflexivity].
  destruct (configure _ _); reflexivity.
Qed.

End TransitionDriver.

(** C6 as stated fails: a settle from 0 to 0 with a configurator that
    returns no specification, run while a drag holds the offset at
    [13/32], writes 0 into the offset. *)
Lemma C6_counterexample :
  av_value (offset (exec (_transitionTo (Sample.props_instant 0) (of_Z 0) (of_Z 0))
                         (Sample.drag_session (Sample.props_instant 0))))
  <> av_value (offset (Sample.drag_session (Sample.props_instant 0))).
Proof.
  intros E.
  apply (f_equal (same (of_Z 0))) in E. vm_compute in E. discriminate E.
Qed.

(** C6, amended.  A settle from [i] to [i] leaves the value of the offset
    unchanged whenever the offset already holds [i].  When the configurator
    returns no specification the driver writes [i] into the offset; when it
    returns one the driver writes nothing itself and starts the animation of
    the specification on the offset with [toValue = i]. *)
Theorem C6_settle_at_rest (props : Props) (i : number) (w : World) :
  let w' := exec (_transitionTo props i i) w in
  (av_value (offset w) = i -> av_value (offset w') = av_value (offset w))
  /\
  match configuredSpec props i i with
  | None =>
      calls w' = SetValue i :: calls w /\ av_value (offset w') = i
  | Some spec =>
      (exists a : Animation,
         calls w' = StartAnimation a :: calls w /\
         av_animation (offset w') = Some a /\
         anim_timing a = timing spec /\
         anim_config a !! "toValue" = Some (CNum i)) /\
      av_value (offset w') = av_value (offset w)
  end.
Proof.
  intros w'. subst w'. rewrite _transitionTo_exec.
  destruct (configuredSpec props i i) as [spec|]; cbn.
  - split; [reflexivity|]. split; [|reflexivity].
    eexists. repeat split. cbn. apply lookup_insert_eq.
  - split; [intros H; symmetry; exact H|]. split; reflexivity.
Qed.

(** Settling at rest on the first page, with no specification: the offset
    keeps the value 0. *)
Lemma C6_witness :
  av_value (offset (exec (_transitionTo (Sample.props_instant 0) (of_Z 0) (of_Z 0))
                         Sample.mounted))
  = av_value (offset Sample.mounted).
Proof.
  apply (proj1 (C6_settle_at_rest (Sample.props_instant 0) (of_Z 0)
                  Sample.mounted)).
  reflexivity.
Defined.

(** ** Gesture end at rest *)

(** C7. When [_lastOffset] equals the current index at the end of a
    gesture, no call is made on any collaborator: no index is requested
    and the offset cell is untouched, whatever the release sample and
    whatever kind of move the session recorded. *)
Theorem C7_no_request_when_settled (os : OS) (props : Props) (g : GestureState) (w : World) :
  (_lastOffset (self w) =? index (navigationState props))%num = true ->
  calls (exec (_finishGesture os props g) w) = calls w /\
  offset (exec (_finishGesture os props g) w) = offset w.
Proof.
  intros H. rewrite _finishGesture_calls, _finishGesture_offset.
  unfold neqb. rewrite H. split; reflexivity.
Qed.

(** A tap on the mounted component requests nothing. *)
Lemma C7_witness :
  requested (calls (exec (_finishGesture ios (Sample.props_at 0) Sample.tap)
                         Sample.mounted)) = [].
Proof.
  rewrite (proj1 (C7_no_request_when_settled ios (Sample.props_at 0) Sample.tap
                    Sample.mounted eq_refl)).
  reflexivity.
Defined.

(** ** Session reset *)

(** C8 as stated fails: after a leftward drag of 130 is released, the
    session still holds the direction recorded by the claim, [-130], not the
    initial value 0. *)
Lemma C8_counterexample :
  ~ session_cleared
      (self (exec (handle ios (Sample.props_at 0) (Release Sample.release_left))
                  Sample.dragging)).
Proof.
  intros (_ & _ & E).
  apply (f_equal (same (of_Z (-130)))) in E. vm_compute in E. discriminate E.
Qed.

(** C8, amended.  At every gesture end, release or termination, and on
    every branch of the commit resolver, [_lastValue] and [_isMoving] are
    reset to [null]; [_startDirection] is left as it was (the next claim
    overwrites it), and so is [_lastOffset]. *)
Theorem C8_session_reset (os : OS) (props : Props) (g : GestureState) (w : World) :
  let ended := exec (_finishGesture os props g) w in
  _lastValue (self ended) = None /\
  _isMoving (self ended) = None /\
  _startDirection (self ended) = _startDirection (self w) /\
  _lastOffset (self ended) = _lastOffset (self w) /\
  exec (handle os props (Release g)) w = ended /\
  exec (handle os props (Terminate g)) w = ended.
Proof.
  cbn zeta. rewrite _finishGesture_self. repeat split.
Qed.

(** ** Release at the origin *)

(** C9. When the release sample has [dx = 0], [dx / |dx|] is [NaN], so is
    [index - dx / |dx|], the range check refuses it and the resolver
    answers the current index, whether or not a threshold is exceeded; the
    gesture end then requests nothing or the current index, which is in
    range whenever the current index is. *)
Theorem C9_zero_displacement (os : OS) (props : Props) (g : GestureState) (w : World) :
  (dx g =? zero)%num = true ->
  let index := index (navigationState props) in
  (dx g / abs (dx g))%num = NaN /\
  (index - dx g / abs (dx g))%num = NaN /\
  _isIndexInRange props (index - dx g / abs (dx g))%num = false /\
  _getNextIndex os props g = index /\
  (_isIndexInRange props index = true ->
   _isIndexInRange props (_getNextIndex os props g) = true) /\
  (calls (exec (_finishGesture os props g) w) = calls w \/
   calls (exec (_finishGesture os props g) w) = JumpToIndex index :: calls w).
Proof.
  intros H index. apply eqb_zero in H.
  assert (E : _getNextIndex os props g = index).
  { rewrite _getNextIndex_unfold. cbn zeta.
    rewrite H, div_abs_zero, sub_NaN_r, _isIndexInRange_NaN.
    destruct (commits os props g); reflexivity. }
  rewrite H, div_abs_zero, sub_NaN_r, _isIndexInRange_NaN.
  repeat (split; [reflexivity|]). split; [exact E|].
  split; [rewrite E; intros Hi; exact Hi|].
  rewrite _finishGesture_calls, E.
  destruct (neqb _ _); [right | left; reflexivity].
  destruct (truthy _ && _); reflexivity.
Qed.

(** A release with no displacement left and a velocity of 1, far above
    the threshold of 0.25, after a drag to [13/32]: the request is for the
    current index. *)
Lemma C9_witness :
  (abs (vx Sample.flick_at_origin)
     >? platformThreshold ios (Sample.props_at 0))%num = true /\
  _getNextIndex ios (Sample.props_at 0) Sample.flick_at_origin
    = index (navigationState (Sample.props_at 0)).
Proof.
  split; [vm_compute; reflexivity|].
  apply (C9_zero_displacement ios (Sample.props_at 0) Sample.flick_at_origin
           Sample.dragging).
  vm_compute; reflexivity.
Defined.

(** ** Claims at the edges *)

(** C10. With swiping enabled and a valid current index, both edge guards
    of the classifier hold, so a horizontal sample beyond the dead zone is
    claimed in either direction; on the first page a rightward sample
    ([dx >= 12]) is claimed although there is no previous page.  Moving out
    of range is refused afterwards: a move sample whose candidate offset
    is out of range writes nothing, and the commit resolver answers the
    current index or an index in range. *)
Theorem C10_edge_guards (props : Props) (g : GestureState) (w : World) :
  swipeEnabled props <> Some false ->
  _isMovingHorzontally g = true ->
  let index := index (navigationState props) in
  let count := length (routes (navigationState props)) in
  (_isIndexInRange props index = true ->
   (index >=? zero)%num = true /\ (index <=? of_nat count - one)%num = true)
  /\
  (_isIndexInRange props index = true ->
   ((dx g >=? of_Z 12)%num || (dx g <=? of_Z (-12))%num) = true ->
   eval (_canMoveScreen props g) w = true)
  /\
  (index = zero -> (dx g >=? of_Z 12)%num = true ->
   eval (_canMoveScreen props g) w = true)
  /\
  (forall (g' : GestureState) (w' : World),
     _isIndexInRange props (nextPosition props w' g') = false ->
     calls (exec (_respondToGesture props g') w') = calls w')
  /\
  (forall (os : OS) (g' : GestureState),
     _getNextIndex os props g' = index \/
     _isIndexInRange props (_getNextIndex os props g') = true).
Proof.
  intros Hen Hh index count.
  assert (Hc : eval (_canMoveScreen props g) w =
               ((dx g >=? of_Z 12)%num && (index >=? zero)%num) ||
               ((dx g <=? of_Z (-12))%num && (index <=? of_nat count - one)%num)).
  { rewrite _canMoveScreen_eval, Hh, neg_DEAD_ZONE.
    destruct (swipeEnabled props) as [[]|]; [reflexivity | | reflexivity].
    contradiction Hen; reflexivity. }
  split; [|split; [|split; [|split]]].
  - intros H. apply andb_true_iff in H. exact H.
  - intros H Hd. apply andb_true_iff in H as [H0 H1].
    rewrite Hc. fold index in H0. fold index count in H1.
    rewrite H0, H1, !andb_true_r. exact Hd.
  - intros Hi Hd. rewrite Hc, Hd, Hi. reflexivity.
  - intros g' w' H. rewrite _respondToGesture_calls, H, andb_false_r. reflexivity.
  - intros os g'. apply _getNextIndex_cases.
Qed.

(** On the first page a rightward drag of 130 is claimed. *)
Lemma C10_witness :
  eval (_canMoveScreen (Sample.props_at 0) Sample.drag_right) Sample.mounted = true.
Proof.
  apply (proj1 (proj2 (proj2
           (C10_edge_guards (Sample.props_at 0) Sample.drag_right Sample.mounted
              ltac:(discriminate) eq_refl))));
    vm_compute; reflexivity.
Defined.

(** * Further properties of the component *)

(** ** More facts about numbers *)

Lemma ltb_zero_cases a :
  (a <? zero)%num = true ->
  a = NInf \/ exists x : Qc, a = Fin x /\ (x < 0)%Qc.
Proof.
  destruct a as [| |x|]; try discriminate; [left; reflexivity|].
  intros H. right. exists x. split; [reflexivity|].
  apply ltb_Fin in H. rewrite Qc_of_Z_0 in H. exact H.
Qed.

Lemma gtb_zero_cases a :
  (a >? zero)%num = true ->
  a = PInf \/ exists x : Qc, a = Fin x /\ (0 < x)%Qc.
Proof.
  destruct a as [| |x|]; try discriminate; [|left; reflexivity].
  intros H. right. exists x. split; [reflexivity|].
  apply gtb_Fin in H. rewrite Qc_of_Z_0 in H. exact H.
Qed.

Lemma Qcdiv_neg_pos x d : (x < 0)%Qc -> (0 < d)%Qc -> (x / d < 0)%Qc.
Proof.
  intros Hx Hd. unfold Qcdiv.
  rewrite <- (Qcmult_0_l (/ d)).
  apply Qcmult_lt_compat_r; [apply Qcinv_pos, Hd | exact Hx].
Qed.

Lemma Qcdiv_pos_pos x d : (0 < x)%Qc -> (0 < d)%Qc -> (0 < x / d)%Qc.
Proof.
  intros Hx Hd. unfold Qcdiv.
  rewrite <- (Qcmult_0_l (/ d)).
  apply Qcmult_lt_compat_r; [apply Qcinv_pos, Hd | exact Hx].
Qed.

Lemma Qcminus_neg_gt i t : (t < 0)%Qc -> (i < i - t)%Qc.
Proof.
  intros Ht. apply Qclt_minus_iff.
  replace (i - t + - i)%Qc with (- t)%Qc by ring.
  apply Qclt_minus_iff in Ht. rewrite Qcplus_0_l in Ht. exact Ht.
Qed.

Lemma Qcminus_pos_lt i t : (0 < t)%Qc -> (i - t < i)%Qc.
Proof.
  intros Ht. apply Qclt_minus_iff.
  replace (i + - (i - t))%Qc with t by ring. exact Ht.
Qed.

Lemma Qcsgn_pos d : (0 < d)%Qc -> Qcsgn d = Gt.
Proof. apply Qcsgn_Gt. Qed.

(** The candidate of a leftward displacement over a positive width lies
    strictly above the baseline ... *)
Lemma sub_div_left (i d : Qc) a :
  (0 < d)%Qc -> (a <? zero)%num = true ->
  (Fin i - a / Fin d)%num = PInf \/
  exists c : Qc, (Fin i - a / Fin d)%num = Fin c /\ (i < c)%Qc.
Proof.
  intros Hd Ha. apply ltb_zero_cases in Ha as [-> | (x & -> & Hx)].
  - left. cbn [div]. rewrite (Qcsgn_pos d Hd). reflexivity.
  - right. cbn [div]. rewrite (Qcsgn_pos d Hd). cbn [sub].
    eexists. split; [reflexivity|].
    apply Qcminus_neg_gt, Qcdiv_neg_pos; assumption.
Qed.

(** ... and that of a rightward displacement strictly below it. *)
Lemma sub_div_right (i d : Qc) a :
  (0 < d)%Qc -> (a >? zero)%num = true ->
  (Fin i - a / Fin d)%num = NInf \/
  exists c : Qc, (Fin i - a / Fin d)%num = Fin c /\ (c < i)%Qc.
Proof.
  intros Hd Ha. apply gtb_zero_cases in Ha as [-> | (x & -> & Hx)].
  - left. cbn [div]. rewrite (Qcsgn_pos d Hd). reflexivity.
  - right. cbn [div]. rewrite (Qcsgn_pos d Hd). cbn [sub].
    eexists. split; [reflexivity|].
    apply Qcminus_pos_lt, Qcdiv_pos_pos; assumption.
Qed.

(** A quotient by zero is never finite, and neither is a difference with
    it. *)
Lemma sub_div_zero a b : exists c, (a - b / zero)%num = c /\
  match c with Fin _ => False | _ => True end.
Proof.
  eexists. split; [reflexivity|].
  destruct b as [| |q|]; cbn [div].
  - rewrite sub_NaN_r. exact I.
  - change (Qcsgn (Qc_of_Z 0)) with Eq. destruct a; exact I.
  - change (Qcsgn (Qc_of_Z 0)) with Eq. cbn iota.
    destruct (Qcsgn q); destruct a; exact I.
  - change (Qcsgn (Qc_of_Z 0)) with Eq. destruct a; exact I.
Qed.

(** [|a| > |b|] forces [a] to be a non-zero number and [b] to be finite. *)
Lemma gtb_abs_abs a b :
  (abs a >? abs b)%num = true ->
  is_nan a = false /\ (a =? zero)%num = false /\
  is_nan b = false /\ is_infinite b = false.
Proof.
  intros H.
  destruct b as [| |q|]; try (destruct a; discriminate).
  destruct a as [| |p|]; try discriminate; repeat split; try reflexivity.
  apply not_true_iff_false. intros E. apply eqb_Fin in E. subst p.
  cbn [abs] in H. apply gtb_Fin in H.
  assert (E0 : Qcabs (Qc_of_Z 0) = Qc_of_Z 0)
    by (apply Qcabs_pos; discriminate).
  rewrite E0, Qc_of_Z_0 in H.
  apply (Qclt_not_le _ _ H), Qcabs_nonneg.
Qed.

Lemma mul_3_finite a :
  is_nan (a * of_Z 3)%num = false -> is_infinite (a * of_Z 3)%num = false ->
  is_nan a = false /\ is_infinite a = false.
Proof. destruct a; cbn; auto; discriminate. Qed.

(** ** The classifier, further *)

Lemma _canMoveScreen_exec props g w :
  exec (_canMoveScreen props g) w =
    if eval (_canMoveScreen props g) w
    then set_fields (set_startDirection (dx g)) w
    else w.
Proof.
  rewrite _canMoveScreen_eval. unfold _canMoveScreen, exec, bind, when.
  destruct (swipeEnabled props) as [[]|]; cbn; try reflexivity;
    destruct (_isMovingHorzontally g && _); reflexivity.
Qed.

(** X1. The classifier touches nothing but [_startDirection]: it makes no call
    on a collaborator, leaves the offset cell and the other three fields as
    they are, leaves the whole state as it is when it does not claim, and
    records the displacement of the sample when it claims. *)
Theorem classifier_frame (props : Props) (g : GestureState) (w : World) :
  let w' := exec (_canMoveScreen props g) w in
  calls w' = calls w /\
  offset w' = offset w /\
  _lastOffset (self w') = _lastOffset (self w) /\
  _lastValue (self w') = _lastValue (self w) /\
  _isMoving (self w') = _isMoving (self w) /\
  (eval (_canMoveScreen props g) w = false -> w' = w) /\
  (eval (_canMoveScreen props g) w = true ->
   _startDirection (self w') = dx g).
Proof.
  cbn zeta. rewrite _canMoveScreen_exec.
  destruct (eval (_canMoveScreen props g) w); repeat split; try discriminate.
Qed.

Lemma classifier_frame_witness :
  exec (_canMoveScreen (Sample.props_at 0) Sample.vertical) Sample.mounted
    = Sample.mounted /\
  _startDirection
    (self (exec (_canMoveScreen (Sample.props_at 0) Sample.drag_left)
                Sample.mounted))
    = dx Sample.drag_left.
Proof.
  split.
  - apply (classifier_frame (Sample.props_at 0) Sample.vertical Sample.mounted).
    vm_compute. reflexivity.
  - apply (classifier_frame (Sample.props_at 0) Sample.drag_left Sample.mounted).
    vm_compute. reflexivity.
Defined.

Lemma _canMoveScreen_horizontal props g w :
  eval (_canMoveScreen props g) w = true -> _isMovingHorzontally g = true.
Proof.
  rewrite _canMoveScreen_eval.
  destruct (swipeEnabled props) as [[]|]; try discriminate;
    intros H; apply andb_true_iff in H as [H _]; exact H.
Qed.

(** X2. A sample that is claimed, or that passes the axis test of the drag
    tracker, has a horizontal displacement and a horizontal velocity that
    are numbers other than zero, and a finite vertical displacement and
    velocity.  So a sample with no horizontal velocity, or with [NaN] in
    any component, is never claimed and never makes a session a horizontal
    move. *)
Theorem degenerate_samples_rejected (props : Props) (g : GestureState) (w : World) :
  eval (_canMoveScreen props g) w = true \/ _isMovingHorzontally g = true ->
  (is_nan (dx g) = false /\ (dx g =? zero)%num = false) /\
  (is_nan (vx g) = false /\ (vx g =? zero)%num = false) /\
  (is_nan (dy g) = false /\ is_infinite (dy g) = false) /\
  (is_nan (vy g) = false /\ is_infinite (vy g) = false).
Proof.
  intros H.
  assert (H' : _isMovingHorzontally g = true)
    by (destruct H as [H | H]; [exact (_canMoveScreen_horizontal props g w H) | exact H]).
  unfold _isMovingHorzontally in H'. apply andb_true_iff in H' as [Hx Hv].
  apply gtb_abs_abs in Hx as (X1 & X2 & X3 & X4).
  apply gtb_abs_abs in Hv as (V1 & V2 & V3 & V4).
  destruct (mul_3_finite _ X3 X4), (mul_3_finite _ V3 V4). auto 10.
Qed.

(** The claimed leftward drag has a velocity; the same displacement held
    still is not claimed. *)
Lemma degenerate_samples_rejected_witness :
  (vx Sample.drag_left =? zero)%num = false /\
  eval (_canMoveScreen (Sample.props_at 0) Sample2.stationary) Sample.mounted
    = false.
Proof.
  split.
  - apply (degenerate_samples_rejected (Sample.props_at 0) Sample.drag_left
             Sample.mounted).
    left. vm_compute. reflexivity.
  - destruct (eval (_canMoveScreen (Sample.props_at 0) Sample2.stationary)
                   Sample.mounted) eqn:E; [|reflexivity].
    destruct (degenerate_samples_rejected (Sample.props_at 0)
                Sample2.stationary Sample.mounted (or_introl E))
      as (_ & (_ & Hv) & _).
    vm_compute in Hv. discriminate Hv.
Defined.

(** ** The commit resolver, further *)

Lemma Qc_of_Z_1 : Qc_of_Z 1 = 1%Qc.
Proof. apply Z2Qc_inj_1. Qed.

Lemma Qcminus_of_Z_m1 i : (i - Qc_of_Z (-1))%Qc = (i + 1)%Qc.
Proof.
  replace (Qc_of_Z (-1)) with (- (1))%Qc by (apply Qc_is_canon; reflexivity).
  ring.
Qed.

Lemma Qcminus_of_Z_1 i : (i - Qc_of_Z 1)%Qc = (i - 1)%Qc.
Proof. rewrite Qc_of_Z_1. reflexivity. Qed.

(** An index in range is finite. *)
Lemma _isIndexInRange_Fin props v :
  _isIndexInRange props v = true -> exists c : Qc, v = Fin c.
Proof.
  intros H. apply _isIndexInRange_spec in H as (c & -> & _). exists c. reflexivity.
Qed.

Section Resolver.

Variable os : OS.
Variable props : Props.

Local Abbreviation index_ := (index (navigationState props)).
Local Abbreviation count_ := (length (routes (navigationState props))).

(** When the resolver answers another index than the current one, the
    current index is finite, the displacement is a non-zero number, and
    the answer is the page next to the current one on the side the
    displacement points away from. *)
Lemma _getNextIndex_neighbour g :
  _getNextIndex os props g = index_ \/
  exists i : Qc,
    index_ = Fin i /\
    in_range count_ (_getNextIndex os props g) /\
    (((dx g <? zero)%num = true /\
      _getNextIndex os props g = Fin (i + 1)%Qc) \/
     ((dx g >? zero)%num = true /\
      _getNextIndex os props g = Fin (i - 1)%Qc)).
Proof.
  rewrite _getNextIndex_unfold.
  destruct (commits os props g); [|left; reflexivity]. cbn zeta.
  destruct (_isIndexInRange props (index_ - dx g / abs (dx g))%num) eqn:E;
    [|left; reflexivity].
  right. pose proof E as Hr. apply _isIndexInRange_spec in Hr.
  destruct (dx g) as [| |q|] eqn:Edx;
    try (cbn [div abs] in E; rewrite sub_NaN_r, _isIndexInRange_NaN in E;
         discriminate E).
  destruct (Qcanon.Qc_eq_dec q 0%Qc) as [-> | Hq].
  { change (Fin 0%Qc / abs (Fin 0%Qc))%num with NaN in E.
    rewrite sub_NaN_r, _isIndexInRange_NaN in E. discriminate E. }
  rewrite (div_abs_sign q Hq) in *.
  destruct (Qclt_le_dec q 0) as [Hneg | Hpos].
  - rewrite (sign_neg q Hneg) in *.
    destruct index_ as [| |i|] eqn:Ei; try discriminate E.
    exists i. split; [reflexivity|]. split; [exact Hr|]. left. split.
    + apply ltb_Fin. rewrite Qc_of_Z_0. exact Hneg.
    + unfold of_Z. cbn [sub]. rewrite Qcminus_of_Z_m1. reflexivity.
  - assert (Hpos' : (0 < q)%Qc).
    { destruct (Qcle_lt_or_eq _ _ Hpos) as [H | H];
        [exact H | symmetry in H; contradiction]. }
    rewrite (sign_pos q Hpos') in *.
    destruct index_ as [| |i|] eqn:Ei; try discriminate E.
    exists i. split; [reflexivity|]. split; [exact Hr|]. right. split.
    + apply gtb_Fin. rewrite Qc_of_Z_0. exact Hpos'.
    + unfold of_Z. cbn [sub]. rewrite Qcminus_of_Z_1. reflexivity.
Qed.

Lemma _getNextIndex_one_step g : one_step props (_getNextIndex os props g).
Proof.
  destruct (_getNextIndex_neighbour g) as [E | (i & Ei & Hr & H)];
    [left; exact E | right].
  exists i. split; [exact Ei|]. split; [exact Hr|].
  destruct H as [[_ H] | [_ H]]; auto.
Qed.

End Resolver.

(** X3. The resolver never skips a page.  Its answer is the current index, or
    the next page for a leftward displacement ([dx < 0]), or the previous
    page for a rightward one ([dx > 0]); an answer other than the current
    index is in range. *)
Theorem resolver_moves_one_page (os : OS) (props : Props) (g : GestureState) :
  let next := _getNextIndex os props g in
  next = index (navigationState props) \/
  exists i : Qc,
    index (navigationState props) = Fin i /\
    in_range (length (routes (navigationState props))) next /\
    (((dx g <? zero)%num = true /\ next = Fin (i + 1)%Qc) \/
     ((dx g >? zero)%num = true /\ next = Fin (i - 1)%Qc)).
Proof. apply _getNextIndex_neighbour. Qed.

(** *** The two platforms *)

Lemma gtb_abs_div_million v t :
  (abs v >? t)%num = true -> (abs v >? t / of_Z 1000000)%num = true.
Proof.
  rewrite gtb_div_million.
  destruct v as [| |p|], t as [| |q|]; try discriminate; try reflexivity.
  change (of_Z 1000000) with (Fin (Qc_of_Z 1000000)). cbn [abs mul].
  rewrite !gtb_Fin. pose proof (Qcabs_nonneg p) as Hp. revert Hp.
  generalize (Qcabs p). clear p. intros p.
  unfold Qclt, Qcle, Qcmult. cbn [this Q2Qc Qc_of_Z]. rewrite !Qred_correct.
  unfold inject_Z. intros Hp H. lra.
Qed.

Lemma commits_ios_android props g :
  commits ios props g = true -> commits android props g = true.
Proof.
  unfold commits, platformThreshold. intros H.
  apply orb_true_iff in H as [H | H]; apply orb_true_iff; [left; exact H|].
  right. apply gtb_abs_div_million, H.
Qed.

(** X4. A release that passes the commit test on the other platform passes it
    on Android, whatever the thresholds: dividing the velocity threshold by
    1,000,000 only makes the test easier.  So when the resolver leaves the
    current index on the other platform, it gives the same answer on
    Android. *)
Theorem android_commits_when_ios_does (props : Props) (g : GestureState) :
  ((abs (dx g) >? swipeDistanceThreshold props)%num ||
   (abs (vx g) >? swipeVelocityThreshold props)%num = true ->
   (abs (dx g) >? swipeDistanceThreshold props)%num ||
   (abs (vx g) >? swipeVelocityThreshold props / of_Z 1000000)%num = true)
  /\
  (_getNextIndex ios props g <> index (navigationState props) ->
   _getNextIndex android props g = _getNextIndex ios props g).
Proof.
  split; [exact (commits_ios_android props g)|].
  rewrite !_getNextIndex_unfold.
  destruct (commits ios props g) eqn:E; [|intros H; contradiction H; reflexivity].
  rewrite (commits_ios_android props g E). reflexivity.
Qed.

(** The release at rest of the leftward drag of 130 commits on both
    platforms, to the same page. *)
Lemma android_commits_when_ios_does_witness :
  _getNextIndex android (Sample.props_at 0) Sample.release_left
    = _getNextIndex ios (Sample.props_at 0) Sample.release_left.
Proof.
  apply (android_commits_when_ios_does (Sample.props_at 0) Sample.release_left).
  intros E. apply (f_equal (same (of_Z 1))) in E. vm_compute in E. discriminate E.
Defined.

(** ** Whole gestures *)

Lemma requested_app l1 l2 : requested (l1 ++ l2) = requested l1 ++ requested l2.
Proof. unfold requested. apply omap_app. Qed.

Lemma exec_run_app os props es1 es2 w :
  exec (run os props (es1 ++ es2)) w
    = exec (run os props es2) (exec (run os props es1) w).
Proof.
  revert w. induction es1 as [| e es1 IH]; intros w; [reflexivity|].
  cbn [app run]. rewrite !exec_bind. apply IH.
Qed.

Lemma exec_run_cons os props e es w :
  exec (run os props (e :: es)) w
    = exec (run os props es) (exec (handle os props e) w).
Proof. cbn [run]. apply exec_bind. Qed.

Section Traces.

Variable os : OS.
Variable props : Props.

Local Abbreviation index_ := (index (navigationState props)).
Local Abbreviation count_ := (length (routes (navigationState props))).

(** What a property of the written values and a property of the resolver's
    answers give for every sequence of events. *)
Lemma run_effects (W R : number -> Prop) :
  (forall g w,
     moving_after w g && _isIndexInRange props (nextPosition props w g) = true ->
     W (nextPosition props w g)) ->
  (forall g, R (_getNextIndex os props g)) ->
  R index_ ->
  forall es w,
    exists l, calls (exec (run os props es) w) = l ++ calls w /\
              Forall W (written l) /\ Forall R (requested l).
Proof.
  intros HW HR Hi. induction es as [| e es IH]; intros w.
  { exists []. repeat split; constructor. }
  rewrite exec_run_cons.
  destruct (IH (exec (handle os props e) w)) as (l2 & E2 & W2 & R2).
  assert (H1 : exists l1, calls (exec (handle os props e) w) = l1 ++ calls w /\
                          Forall W (written l1) /\ Forall R (requested l1)).
  { destruct e as [g | | g | g | g | x]; cbn [handle].
    - exists []. split; [rewrite exec_bind; apply _canMoveScreen_calls|].
      split; constructor.
    - exists [StopAnimation]. repeat split; constructor.
    - rewrite _respondToGesture_calls.
      destruct (moving_after w g && _) eqn:E.
      + exists [SetValue (nextPosition props w g)].
        repeat split; repeat constructor. apply HW, E.
      + exists []. repeat split; constructor.
    - rewrite _finishGesture_calls. destruct (neqb _ _).
      + eexists [JumpToIndex _]. split; [reflexivity|]. split; [constructor|].
        repeat constructor. destruct (truthy _ && _); auto.
      + exists []. repeat split; constructor.
    - rewrite _finishGesture_calls. destruct (neqb _ _).
      + eexists [JumpToIndex _]. split; [reflexivity|]. split; [constructor|].
        repeat constructor. destruct (truthy _ && _); auto.
      + exists []. repeat split; constructor.
    - exists []. repeat split; constructor. }
  destruct H1 as (l1 & E1 & W1 & R1).
  exists (l2 ++ l1). split; [rewrite E2, E1; apply app_assoc|].
  rewrite written_app, requested_app. split; apply Forall_app; split; assumption.
Qed.

End Traces.

(** X5. Whatever the sequence of events and the state it starts in, every
    index the component requests is the current index or a page next to it
    that is in range: no gesture skips a page or leaves the range. *)
Theorem requests_stay_one_page_away (os : OS) (props : Props)
    (es : list Event) (w : World) :
  exists l : list Effect,
    calls (exec (run os props es) w) = l ++ calls w /\
    Forall (one_step props) (requested l).
Proof.
  destruct (run_effects os props (fun _ => True) (one_step props)) with es w
    as (l & E & _ & H);
    [trivial | apply _getNextIndex_one_step | left; reflexivity |].
  exists l. split; assumption.
Qed.

(** *** Nothing to write *)

Lemma not_in_range_not_finite props v :
  match v with Fin _ => False | _ => True end ->
  _isIndexInRange props v = false.
Proof.
  intros H. apply not_true_iff_false. intros E.
  apply _isIndexInRange_Fin in E as (c & ->). exact H.
Qed.

Lemma nextPosition_zero_width props w g :
  width (layout props) = zero ->
  _isIndexInRange props (nextPosition props w g) = false.
Proof.
  intros Hw. unfold nextPosition. rewrite Hw.
  destruct (sub_div_zero
              match _lastValue (self w) with
              | Some v => v
              | None => index (navigationState props)
              end (dx g)) as (c & -> & Hc).
  apply not_in_range_not_finite, Hc.
Qed.

Lemma _isIndexInRange_no_routes props v :
  routes (navigationState props) = [] -> _isIndexInRange props v = false.
Proof.
  intros Hr. apply not_true_iff_false. intros E.
  apply _isIndexInRange_spec in E as (q & _ & H0 & H1).
  rewrite Hr in H1. pose proof (Qcle_trans _ _ _ H0 H1) as H.
  revert H. unfold Qcle. cbn. unfold Qle. cbn. lia.
Qed.

(** X6. While the layout is not measured ([width = 0]) no sequence of events
    writes into the offset: every candidate is an infinity or [NaN]. *)
Theorem unmeasured_layout_writes_nothing (os : OS) (props : Props)
    (es : list Event) (w : World) :
  width (layout props) = zero ->
  exists l : list Effect,
    calls (exec (run os props es) w) = l ++ calls w /\ written l = [].
Proof.
  intros Hw.
  destruct (run_effects os props (fun _ => False) (fun _ => True)) with es w
    as (l & E & H & _); [|trivial|trivial|].
  - intros g w'. rewrite (nextPosition_zero_width props w' g Hw), andb_false_r.
    discriminate.
  - exists l. split; [exact E|].
    destruct (written l); [reflexivity | inversion H; contradiction].
Qed.

Lemma unmeasured_layout_writes_nothing_witness :
  exists l : list Effect,
    calls (exec (run ios (Sample2.props_unmeasured 0)
                   [MoveShouldSet Sample.drag_left; Grant; Move Sample.drag_left;
                    Release Sample.release_left])
                (componentWillMount (Sample2.props_unmeasured 0) (Sample.settled 0)))
      = l ++ [] /\ written l = [].
Proof.
  apply (unmeasured_layout_writes_nothing ios (Sample2.props_unmeasured 0)).
  reflexivity.
Defined.

(** X7. With no route at all, no sequence of events writes into the offset,
    and every index requested is the current index. *)
Theorem no_routes_nothing_moves (os : OS) (props : Props)
    (es : list Event) (w : World) :
  routes (navigationState props) = [] ->
  exists l : list Effect,
    calls (exec (run os props es) w) = l ++ calls w /\
    written l = [] /\
    Forall (fun n => n = index (navigationState props)) (requested l).
Proof.
  intros Hr.
  destruct (run_effects os props (fun _ => False)
              (fun n => n = index (navigationState props))) with es w
    as (l & E & H & R).
  - intros g w'. rewrite (_isIndexInRange_no_routes props _ Hr), andb_false_r.
    discriminate.
  - intros g. rewrite _getNextIndex_unfold.
    destruct (commits os props g); [|reflexivity]. cbn zeta.
    rewrite (_isIndexInRange_no_routes props _ Hr). reflexivity.
  - reflexivity.
  - exists l. split; [exact E|]. split; [|exact R].
    destruct (written l); [reflexivity | inversion H; contradiction].
Qed.

Lemma no_routes_nothing_moves_witness :
  exists l : list Effect,
    calls (exec (run ios Sample2.props_empty
                   [MoveShouldSet Sample.drag_left; Grant; Move Sample.drag_left;
                    Release Sample.release_left])
                (componentWillMount Sample2.props_empty (Sample.settled 0)))
      = l ++ [] /\
    written l = [] /\
    Forall (fun n => n = index (navigationState Sample2.props_empty)) (requested l).
Proof.
  apply (no_routes_nothing_moves ios Sample2.props_empty).
  reflexivity.
Defined.

(** *** The mirror of the offset *)

Section Sessions.

Variable os : OS.
Variable props : Props.

Local Abbreviation index_ := (index (navigationState props)).
Local Abbreviation count_ := (length (routes (navigationState props))).

Lemma _respondToGesture_self g w :
  self (exec (_respondToGesture props g) w) =
    let s := set_isMoving (Some (moving_after w g)) (self w) in
    if moving_after w g && _isIndexInRange props (nextPosition props w g)
    then set_lastOffset (nextPosition props w g) s
    else s.
Proof.
  rewrite _respondToGesture_exec. cbn zeta.
  destruct (moving_after w g && _); reflexivity.
Qed.

Lemma handle_mirrored e w :
  mirrored w -> mirrored (exec (handle os props e) w).
Proof.
  unfold mirrored. intros H.
  destruct e as [g | | g | g | g | x]; cbn [handle].
  - rewrite exec_bind. change (exec (ret tt) ?x) with x.
    rewrite _canMoveScreen_exec.
    destruct (eval (_canMoveScreen props g) w); exact H.
  - exact H.
  - rewrite _respondToGesture_self, _respondToGesture_offset. cbn zeta.
    destruct (moving_after w g && _); [reflexivity | exact H].
  - rewrite _finishGesture_self, _finishGesture_offset. exact H.
  - rewrite _finishGesture_self, _finishGesture_offset. exact H.
  - reflexivity.
Qed.

Lemma run_mirrored es : forall w,
  mirrored w -> mirrored (exec (run os props es) w).
Proof.
  induction es as [| e es IH]; intros w H; [exact H|].
  rewrite exec_run_cons. apply IH, handle_mirrored, H.
Qed.

Lemma _transitionTo_mirrored fromValue toValue w :
  mirrored w -> mirrored (exec (_transitionTo props fromValue toValue) w).
Proof.
  unfold mirrored. intros H. rewrite _transitionTo_exec.
  destruct (configuredSpec props fromValue toValue); [exact H | reflexivity].
Qed.

(** *** A session of move samples *)

Lemma _respondToGesture_isMoving g w :
  _isMoving (self (exec (_respondToGesture props g) w))
    = Some (moving_after w g) /\
  _lastValue (self (exec (_respondToGesture props g) w)) = _lastValue (self w) /\
  _startDirection (self (exec (_respondToGesture props g) w))
    = _startDirection (self w).
Proof.
  rewrite _respondToGesture_self. cbn zeta.
  destruct (moving_after w g && _); repeat split.
Qed.

(** Once a session is classified, move samples keep its kind and its
    baseline. *)
Lemma run_moves_session gs : forall w b,
  _isMoving (self w) = Some b ->
  _isMoving (self (exec (run os props (moves gs)) w)) = Some b /\
  _lastValue (self (exec (run os props (moves gs)) w)) = _lastValue (self w).
Proof.
  induction gs as [| g gs IH]; intros w b H; [split; [exact H | reflexivity]|].
  unfold moves. cbn [map]. rewrite exec_run_cons. cbn [handle]. fold (moves gs).
  destruct (_respondToGesture_isMoving g w) as (E1 & E2 & _).
  assert (E : moving_after w g = b) by (unfold moving_after; rewrite H; reflexivity).
  rewrite E in E1. destruct (IH _ b E1) as [I1 I2].
  split; [exact I1 | rewrite I2; exact E2].
Qed.

(** A session that is not a horizontal move leaves the offset, its mirror
    and the log alone. *)
Lemma run_moves_not_horizontal gs : forall w,
  _isMoving (self w) = Some false ->
  calls (exec (run os props (moves gs)) w) = calls w /\
  offset (exec (run os props (moves gs)) w) = offset w /\
  _lastOffset (self (exec (run os props (moves gs)) w)) = _lastOffset (self w).
Proof.
  induction gs as [| g gs IH]; intros w H; [repeat split|].
  unfold moves. cbn [map]. rewrite exec_run_cons. cbn [handle]. fold (moves gs).
  assert (E : moving_after w g = false) by (unfold moving_after; rewrite H; reflexivity).
  destruct (_respondToGesture_isMoving g w) as (E1 & _). rewrite E in E1.
  destruct (IH _ E1) as (I1 & I2 & I3). rewrite I1, I2, I3.
  rewrite _respondToGesture_calls, _respondToGesture_offset,
    _respondToGesture_self, E. repeat split.
Qed.

(** Move samples whose candidates are all out of range leave the offset,
    its mirror, the baseline and the log alone. *)
Lemma run_moves_out_of_range gs : forall w,
  Forall (fun g => _isIndexInRange props (nextPosition props w g) = false) gs ->
  calls (exec (run os props (moves gs)) w) = calls w /\
  offset (exec (run os props (moves gs)) w) = offset w /\
  _lastOffset (self (exec (run os props (moves gs)) w)) = _lastOffset (self w).
Proof.
  induction gs as [| g gs IH]; intros w H; [repeat split|].
  unfold moves. cbn [map]. rewrite exec_run_cons. cbn [handle]. fold (moves gs).
  inversion H as [| ? ? Hg Hgs]; subst.
  destruct (_respondToGesture_isMoving g w) as (_ & E2 & _).
  destruct (IH (exec (_respondToGesture props g) w)) as (I1 & I2 & I3).
  { eapply Forall_impl; [exact Hgs|]. intros s Hs.
    unfold nextPosition in *. rewrite E2. exact Hs. }
  rewrite I1, I2, I3.
  rewrite _respondToGesture_calls, _respondToGesture_offset,
    _respondToGesture_self, Hg, andb_false_r. repeat split.
Qed.

End Sessions.

(** X8. [_lastOffset] mirrors the offset: when it holds the value of the offset
    cell, it still does after any sequence of events and after any settle,
    whichever branch the settle takes. *)
Theorem mirror_is_kept (os : OS) (props : Props) (w : World) :
  mirrored w ->
  (forall es : list Event, mirrored (exec (run os props es) w)) /\
  (forall fromValue toValue : number,
     mirrored (exec (_transitionTo props fromValue toValue) w)).
Proof.
  intros H. split.
  - intros es. apply run_mirrored, H.
  - intros f t. apply _transitionTo_mirrored, H.
Qed.

Lemma mirror_is_kept_witness :
  mirrored Sample.dragging.
Proof.
  apply (mirror_is_kept ios (Sample.props_at 0) Sample.mounted).
  reflexivity.
Defined.

(** X9. The kind of a session is decided by its first move sample and kept:
    after any further samples [_isMoving] still holds the verdict on the
    first one; and when that verdict is negative, no sample of the session
    writes into the offset, however horizontal the later ones are. *)
Theorem session_kind_is_fixed (os : OS) (props : Props)
    (g0 : GestureState) (gs : list GestureState) (w : World) :
  _isMoving (self w) = None ->
  let w' := exec (run os props (moves (g0 :: gs))) w in
  _isMoving (self w') = Some (_isMovingHorzontally g0) /\
  (_isMovingHorzontally g0 = false ->
   calls w' = calls w /\ offset w' = offset w /\
   _lastOffset (self w') = _lastOffset (self w)).
Proof.
  intros H. cbn zeta. unfold moves. cbn [map]. rewrite exec_run_cons.
  cbn [handle]. fold (moves gs).
  destruct (_respondToGesture_isMoving props g0 w) as (E1 & _).
  assert (E : moving_after w g0 = _isMovingHorzontally g0)
    by (unfold moving_after; rewrite H; reflexivity).
  rewrite E in E1. split.
  - apply (run_moves_session os props gs _ _ E1).
  - intros Hv. rewrite Hv in E1.
    destruct (run_moves_not_horizontal os props gs _ E1) as (I1 & I2 & I3).
    rewrite I1, I2, I3.
    rewrite _respondToGesture_calls, _respondToGesture_offset,
      _respondToGesture_self, E, Hv. repeat split.
Qed.

(** A session opened by the vertical sample stays closed to the horizontal
    drag that follows. *)
Lemma session_kind_is_fixed_witness :
  calls (exec (run ios (Sample.props_at 0)
                 (moves [Sample.vertical; Sample.drag_left; Sample2.drag_further]))
              Sample.mounted)
    = calls Sample.mounted.
Proof.
  apply (session_kind_is_fixed ios (Sample.props_at 0) Sample.vertical
           [Sample.drag_left; Sample2.drag_further] Sample.mounted eq_refl).
  reflexivity.
Defined.

(** *** From grant to release *)

Lemma _startGesture_exec w :
  exec _startGesture w =
    {| self := set_lastValue (Some (av_value (offset w))) (self w);
       offset := {| av_value := av_value (offset w); av_animation := None |};
       calls := StopAnimation :: calls w |}.
Proof. reflexivity. Qed.

Lemma eqb_Fin_refl q : (Fin q =? Fin q)%num = true.
Proof. apply eqb_Fin. reflexivity. Qed.

Lemma neqb_Fin_lt p q : (p < q)%Qc -> neqb (Fin q) (Fin p) = true.
Proof.
  intros H. unfold neqb. apply negb_true_iff, not_true_iff_false. intros E.
  apply eqb_Fin in E. subst. exact (Qclt_not_eq _ _ H eq_refl).
Qed.

Lemma above_last_out_of_range props c :
  (Qc_of_Z (Z.of_nat (length (routes (navigationState props))) - 1) < c)%Qc ->
  _isIndexInRange props (Fin c) = false.
Proof.
  intros H. apply not_true_iff_false. intros E.
  apply _isIndexInRange_spec in E as (q & Eq & _ & Hq). injection Eq as <-.
  exact (Qclt_not_le _ _ H Hq).
Qed.

Lemma below_first_out_of_range props c :
  (c < Qc_of_Z 0)%Qc -> _isIndexInRange props (Fin c) = false.
Proof.
  intros H. apply not_true_iff_false. intros E.
  apply _isIndexInRange_spec in E as (q & Eq & Hq & _). injection Eq as <-.
  exact (Qclt_not_le _ _ H Hq).
Qed.

(** Past the last page, or before the first one, a displacement over a
    positive width has no candidate in range. *)
Lemma overscroll_out_of_range props (d : Qc) a :
  width (layout props) = Fin d -> (0 < d)%Qc ->
  (index (navigationState props)
     = (of_nat (length (routes (navigationState props))) - one)%num /\
   (a <? zero)%num = true) \/
  (index (navigationState props) = zero /\ (a >? zero)%num = true) ->
  _isIndexInRange props
    (index (navigationState props) - a / width (layout props))%num = false.
Proof.
  intros Hw Hd [[Hi Ha] | [Hi Ha]]; rewrite Hw, Hi.
  - unfold of_nat, one. rewrite sub_of_Z. unfold of_Z.
    destruct (sub_div_left (Qc_of_Z (Z.of_nat (length (routes (navigationState props))) - 1))
                d a Hd Ha) as [-> | (c & -> & Hc)];
      [reflexivity | apply above_last_out_of_range, Hc].
  - unfold zero, of_Z.
    destruct (sub_div_right (Qc_of_Z 0) d a Hd Ha) as [-> | (c & -> & Hc)];
      [reflexivity | apply below_first_out_of_range, Hc].
Qed.

(** X10. During a drag the offset follows the finger from the value it had
    when the gesture was granted: whatever samples came before, a sample
    whose candidate [baseline - dx / width] is in range leaves that
    candidate in the offset and in its mirror, with no animation in
    flight. *)
Theorem offset_follows_last_sample (os : OS) (props : Props)
    (g0 : GestureState) (gs : list GestureState) (g : GestureState) (w : World) :
  _isMoving (self w) = None ->
  _isMovingHorzontally g0 = true ->
  let candidate := (av_value (offset w) - dx g / width (layout props))%num in
  _isIndexInRange props candidate = true ->
  let w' := exec (run os props (Grant :: moves (g0 :: gs) ++ [Move g])) w in
  av_value (offset w') = candidate /\
  _lastOffset (self w') = candidate /\
  av_animation (offset w') = None.
Proof.
  intros Hnone Hh candidate Hr. cbn zeta.
  rewrite exec_run_cons, exec_run_app. cbn [handle].
  set (w1 := exec _startGesture w).
  assert (L1 : _lastValue (self w1) = Some (av_value (offset w))) by reflexivity.
  assert (M1 : _isMoving (self w1) = None) by exact Hnone.
  set (w2 := exec (run os props (moves (g0 :: gs))) w1).
  assert (H2 : _isMoving (self w2) = Some true /\
               _lastValue (self w2) = Some (av_value (offset w))).
  { subst w2. unfold moves. cbn [map]. rewrite exec_run_cons. cbn [handle].
    fold (moves gs).
    destruct (_respondToGesture_isMoving props g0 w1) as (E1 & E2 & _).
    assert (E : moving_after w1 g0 = true)
      by (unfold moving_after; rewrite M1; exact Hh).
    rewrite E in E1.
    destruct (run_moves_session os props gs _ _ E1) as [I1 I2].
    split; [exact I1 | rewrite I2, E2; exact L1]. }
  destruct H2 as [M2 L2].
  rewrite exec_run_cons. cbn [handle run]. change (exec (ret tt) ?x) with x.
  assert (Ec : nextPosition props w2 g = candidate)
    by (unfold nextPosition; rewrite L2; reflexivity).
  assert (Em : moving_after w2 g = true)
    by (unfold moving_after; rewrite M2; reflexivity).
  rewrite _respondToGesture_offset, _respondToGesture_self, Em, Ec, Hr.
  repeat split.
Qed.

(** The drag of 130 moved on to 200: the offset holds [0 + 200/320]. *)
Lemma offset_follows_last_sample_witness :
  av_value (offset (exec (run ios (Sample.props_at 0)
                            (Grant :: moves [Sample.drag_left] ++
                               [Move Sample2.drag_further]))
                         Sample.mounted))
    = (av_value (offset Sample.mounted)
       - dx Sample2.drag_further / width (layout (Sample.props_at 0)))%num.
Proof.
  apply (offset_follows_last_sample ios (Sample.props_at 0) Sample.drag_left []
           Sample2.drag_further Sample.mounted eq_refl);
    vm_compute; reflexivity.
Defined.

(** X11. At rest on the last page a gesture of leftward samples, and at rest on
    the first page a gesture of rightward samples, never leaves the page:
    it requests no index, any value it writes into the offset is the
    current index itself, and the component is at rest again after the
    release, whatever the release sample is. *)
Theorem overscroll_requests_nothing (os : OS) (props : Props)
    (gs : list GestureState) (g : GestureState) (w : World) (d : Qc) :
  at_rest props w ->
  width (layout props) = Fin d -> (0 < d)%Qc ->
  (index (navigationState props)
     = (of_nat (length (routes (navigationState props))) - one)%num /\
   Forall (fun s => (dx s <? zero)%num = true) gs) \/
  (index (navigationState props) = zero /\
   Forall (fun s => (dx s >? zero)%num = true) gs) ->
  let w' := exec (run os props (Grant :: moves gs ++ [Release g])) w in
  exists l : list Effect,
    calls w' = l ++ calls w /\
    requested l = [] /\
    Forall (fun v => v = index (navigationState props)) (written l) /\
    at_rest props w'.
Proof.
  intros (Hv & Hl & Hm) Hw Hd Hedge. cbn zeta.
  rewrite exec_run_cons, exec_run_app. cbn [handle].
  set (w1 := exec _startGesture w).
  assert (Hout : Forall (fun s => _isIndexInRange props (nextPosition props w1 s)
                                  = false) gs).
  { assert (E : forall s, nextPosition props w1 s
                  = (index (navigationState props) - dx s / width (layout props))%num)
      by (intros s; unfold nextPosition; cbn; rewrite Hv; reflexivity).
    destruct Hedge as [[Hi Hs] | [Hi Hs]];
      (eapply Forall_impl; [exact Hs|]); intros s Hsx; rewrite E;
      apply (overscroll_out_of_range props d (dx s) Hw Hd); auto. }
  destruct (run_moves_out_of_range os props gs w1 Hout) as (C2 & O2 & L2).
  set (w2 := exec (run os props (moves gs)) w1) in *.
  rewrite exec_run_cons. cbn [handle run]. change (exec (ret tt) ?x) with x.
  assert (Efin : exists i : Qc, index (navigationState props) = Fin i).
  { destruct Hedge as [[Hi _] | [Hi _]]; rewrite Hi.
    - unfold of_nat, one. rewrite sub_of_Z. eexists. reflexivity.
    - eexists. reflexivity. }
  destruct Efin as (i & Ei).
  assert (Hsame : neqb (_lastOffset (self w2)) (index (navigationState props))
                  = false).
  { rewrite L2. change (_lastOffset (self w1)) with (_lastOffset (self w)).
    rewrite Hl, Ei. unfold neqb. rewrite eqb_Fin_refl. reflexivity. }
  exists [StopAnimation].
  split; [rewrite _finishGesture_calls, Hsame; exact C2|].
  split; [reflexivity|]. split; [constructor|].
  unfold at_rest. rewrite _finishGesture_offset, _finishGesture_self, O2.
  repeat split; [exact Hv|]. cbn. rewrite L2. exact Hl.
Qed.

(** On the last of three pages, two leftward samples and their release:
    no index is requested. *)
Lemma overscroll_requests_nothing_witness :
  exists l : list Effect,
    calls (exec (run ios (Sample.props_at 2)
                   (Grant :: moves [Sample.drag_left; Sample2.drag_further]
                      ++ [Release Sample.fling_left]))
                Sample2.mounted_last)
      = l ++ calls Sample2.mounted_last /\
    requested l = [].
Proof.
  destruct (overscroll_requests_nothing ios (Sample.props_at 2)
              [Sample.drag_left; Sample2.drag_further] Sample.fling_left
              Sample2.mounted_last (Qc_of_Z 320)) as (l & E & R & _).
  - repeat split.
  - reflexivity.
  - reflexivity.
  - left. split; [apply same_eq; vm_compute; reflexivity|].
    repeat constructor.
  - exists l. split; [exact E | exact R].
Defined.

(** *** A complete swipe *)

Lemma leb_m12_ltb_zero a : (a <=? of_Z (-12))%num = true -> (a <? zero)%num = true.
Proof.
  destruct a as [| |q|]; try discriminate; [reflexivity|].
  intros H. apply (leb_Fin q) in H. apply ltb_Fin.
  apply Qcle_lt_trans with (Qc_of_Z (-12)); [exact H | reflexivity].
Qed.

(** X12. From rest, a leftward swipe advances one page.  The sample [g] is
    claimed, the grant freezes the baseline, the move writes the candidate
    [index - dx / width], and a release [g'] that still points left, does
    not move back to the right and passes the distance or the velocity
    test requests [index + 1], provided that page exists.  These are the
    three calls the gesture makes, in this order: [stopAnimation],
    [setValue], [jumpToIndex]. *)
Theorem left_swipe_advances_one_page (os : OS) (props : Props)
    (g g' : GestureState) (w : World) (i d : Qc) :
  at_rest props w ->
  swipeEnabled props <> Some false ->
  index (navigationState props) = Fin i ->
  _isIndexInRange props (Fin i) = true ->
  _isIndexInRange props (Fin (i + 1)%Qc) = true ->
  width (layout props) = Fin d -> (0 < d)%Qc ->
  _isMovingHorzontally g = true ->
  (dx g <=? of_Z (-12))%num = true ->
  _isIndexInRange props (Fin i - dx g / Fin d)%num = true ->
  (dx g' <? zero)%num = true ->
  is_infinite (dx g') = false ->
  (vx g' >? zero)%num = false ->
  (abs (dx g') >? swipeDistanceThreshold props)%num ||
  (abs (vx g') >? platformThreshold os props)%num = true ->
  calls (exec (run os props [MoveShouldSet g; Grant; Move g; Release g']) w)
    = JumpToIndex (Fin (i + 1)%Qc)
        :: SetValue (Fin i - dx g / Fin d)%num
        :: StopAnimation :: calls w.
Proof.
  intros (Hv & Hl & Hm) Hen Hi Hin Hnext Hw Hd Hh Hdz Hcand Hneg Hfin Hvx Hcommit.
  pose proof (leb_m12_ltb_zero _ Hdz) as Hdx.
  (* the claim *)
  assert (Hclaim : eval (_canMoveScreen props g) w = true).
  { rewrite _canMoveScreen_eval, Hh, neg_DEAD_ZONE, Hdz.
    pose proof Hin as Hin'. unfold _isIndexInRange in Hin'.
    apply andb_true_iff in Hin' as [_ Hle]. rewrite Hi, Hle, orb_true_r.
    destruct (swipeEnabled props) as [[]|]; [reflexivity | | reflexivity].
    contradiction Hen; reflexivity. }
  rewrite !exec_run_cons. cbn [handle run]. change (exec (ret tt) ?x) with x.
  rewrite exec_bind. change (exec (ret tt) ?x) with x.
  rewrite _canMoveScreen_exec, Hclaim.
  set (w1 := set_fields (set_startDirection (dx g)) w).
  rewrite _startGesture_exec.
  set (w2 := {| self := set_lastValue (Some (av_value (offset w1))) (self w1);
                offset := {| av_value := av_value (offset w1);
                             av_animation := None |};
                calls := StopAnimation :: calls w1 |}).
  (* the move *)
  assert (Ec : nextPosition props w2 g = (Fin i - dx g / Fin d)%num).
  { unfold nextPosition. cbn. rewrite Hv, Hi, Hw. reflexivity. }
  assert (Em : moving_after w2 g = true).
  { unfold moving_after. cbn. rewrite Hm. exact Hh. }
  set (w3 := exec (_respondToGesture props g) w2).
  assert (C3 : calls w3 = SetValue (Fin i - dx g / Fin d)%num
                            :: StopAnimation :: calls w).
  { subst w3. rewrite _respondToGesture_calls, Em, Ec, Hcand. reflexivity. }
  assert (S3 : self w3 = set_lastOffset (Fin i - dx g / Fin d)%num
                           (set_isMoving (Some true) (self w2))).
  { subst w3. rewrite _respondToGesture_self, Em, Ec, Hcand. reflexivity. }
  (* the release *)
  assert (Hmoved : neqb (_lastOffset (self w3)) (index (navigationState props))
                   = true).
  { rewrite S3, Hi. cbn [_lastOffset set_lastOffset].
    destruct (sub_div_left i d (dx g) Hd Hdx) as [E | (c & E & Hc)].
    - rewrite E in Hcand. rewrite E. reflexivity.
    - rewrite E. apply neqb_Fin_lt, Hc. }
  assert (Hforward : eval (_isReverseDirection g') w3 = false).
  { rewrite _isReverseDirection_eval, S3. cbn.
    unfold gtb at 1. rewrite (ltb_asym _ _ Hdx). exact Hvx. }
  assert (Htarget : _getNextIndex os props g' = Fin (i + 1)%Qc).
  { rewrite (_getNextIndex_sign os props g' Hfin). unfold commits.
    rewrite Hcommit, Hi.
    apply ltb_zero_cases in Hneg as [E | (x & E & Hx)];
      [rewrite E in Hfin; discriminate Hfin|].
    rewrite E, (sign_neg x Hx). unfold of_Z. cbn [sub andb].
    rewrite Qcminus_of_Z_m1, Hnext. reflexivity. }
  rewrite _finishGesture_calls, Hmoved, Hforward, Htarget, S3, C3. reflexivity.
Qed.

(** The leftward drag of 130 on the first of three pages, released at
    rest: the three calls of the gesture. *)
Lemma left_swipe_advances_one_page_witness :
  calls (exec (run ios (Sample.props_at 0)
                 [MoveShouldSet Sample.drag_left; Grant; Move Sample.drag_left;
                  Release Sample.release_left])
              Sample.mounted)
    = JumpToIndex (Fin (Qc_of_Z 0 + 1)%Qc)
        :: SetValue (Fin (Qc_of_Z 0) - dx Sample.drag_left / Fin (Qc_of_Z 320))%num
        :: StopAnimation :: calls Sample.mounted.
Proof.
  apply (left_swipe_advances_one_page ios (Sample.props_at 0) Sample.drag_left
           Sample.release_left Sample.mounted (Qc_of_Z 0) (Qc_of_Z 320));
    try (vm_compute; reflexivity);
    try (repeat split; fail); discriminate.
Defined.


Lemma geb_12_gtb_zero a : (a >=? of_Z 12)%num = true -> (a >? zero)%num = true.
Proof.
  destruct a as [| |q|]; try discriminate; [|reflexivity].
  intros H. apply (geb_Fin q) in H. apply gtb_Fin.
  apply Qclt_le_trans with (Qc_of_Z 12); [reflexivity | exact H].
Qed.

Lemma neqb_Fin_gt p q : (q < p)%Qc -> neqb (Fin q) (Fin p) = true.
Proof.
  intros H. unfold neqb. apply negb_true_iff, not_true_iff_false. intros E.
  apply eqb_Fin in E. subst. exact (Qclt_not_eq _ _ H eq_refl).
Qed.

(** X13. From rest, a rightward swipe goes back one page: the mirror image of
    the leftward swipe, with the candidate below the index and the request
    for [index - 1], provided that page exists. *)
Theorem right_swipe_goes_back_one_page (os : OS) (props : Props)
    (g g' : GestureState) (w : World) (i d : Qc) :
  at_rest props w ->
  swipeEnabled props <> Some false ->
  index (navigationState props) = Fin i ->
  _isIndexInRange props (Fin i) = true ->
  _isIndexInRange props (Fin (i - 1)%Qc) = true ->
  width (layout props) = Fin d -> (0 < d)%Qc ->
  _isMovingHorzontally g = true ->
  (dx g >=? of_Z 12)%num = true ->
  _isIndexInRange props (Fin i - dx g / Fin d)%num = true ->
  (dx g' >? zero)%num = true ->
  is_infinite (dx g') = false ->
  (vx g' <? zero)%num = false ->
  (abs (dx g') >? swipeDistanceThreshold props)%num ||
  (abs (vx g') >? platformThreshold os props)%num = true ->
  calls (exec (run os props [MoveShouldSet g; Grant; Move g; Release g']) w)
    = JumpToIndex (Fin (i - 1)%Qc)
        :: SetValue (Fin i - dx g / Fin d)%num
        :: StopAnimation :: calls w.
Proof.
  intros (Hv & Hl & Hm) Hen Hi Hin Hprev Hw Hd Hh Hdz Hcand Hpos Hfin Hvx Hcommit.
  pose proof (geb_12_gtb_zero _ Hdz) as Hdx.
  assert (Hclaim : eval (_canMoveScreen props g) w = true).
  { rewrite _canMoveScreen_eval, Hh. change DEAD_ZONE with (of_Z 12).
    rewrite Hdz.
    pose proof Hin as Hin'. unfold _isIndexInRange in Hin'.
    apply andb_true_iff in Hin' as [Hge _]. rewrite Hi, Hge.
    destruct (swipeEnabled props) as [[]|]; [reflexivity | | reflexivity].
    contradiction Hen; reflexivity. }
  rewrite !exec_run_cons. cbn [handle run]. change (exec (ret tt) ?x) with x.
  rewrite exec_bind. change (exec (ret tt) ?x) with x.
  rewrite _canMoveScreen_exec, Hclaim.
  set (w1 := set_fields (set_startDirection (dx g)) w).
  rewrite _startGesture_exec.
  set (w2 := {| self := set_lastValue (Some (av_value (offset w1))) (self w1);
                offset := {| av_value := av_value (offset w1);
                             av_animation := None |};
                calls := StopAnimation :: calls w1 |}).
  assert (Ec : nextPosition props w2 g = (Fin i - dx g / Fin d)%num).
  { unfold nextPosition. cbn. rewrite Hv, Hi, Hw. reflexivity. }
  assert (Em : moving_after w2 g = true).
  { unfold moving_after. cbn. rewrite Hm. exact Hh. }
  set (w3 := exec (_respondToGesture props g) w2).
  assert (C3 : calls w3 = SetValue (Fin i - dx g / Fin d)%num
                            :: StopAnimation :: calls w).
  { subst w3. rewrite _respondToGesture_calls, Em, Ec, Hcand. reflexivity. }
  assert (S3 : self w3 = set_lastOffset (Fin i - dx g / Fin d)%num
                           (set_isMoving (Some true) (self w2))).
  { subst w3. rewrite _respondToGesture_self, Em, Ec, Hcand. reflexivity. }
  assert (Hmoved : neqb (_lastOffset (self w3)) (index (navigationState props))
                   = true).
  { rewrite S3, Hi. cbn [_lastOffset set_lastOffset].
    destruct (sub_div_right i d (dx g) Hd Hdx) as [E | (c & E & Hc)].
    - rewrite E in Hcand. rewrite E. reflexivity.
    - rewrite E. apply neqb_Fin_gt, Hc. }
  assert (Hforward : eval (_isReverseDirection g') w3 = false).
  { rewrite _isReverseDirection_eval, S3. cbn. rewrite Hdx. exact Hvx. }
  assert (Htarget : _getNextIndex os props g' = Fin (i - 1)%Qc).
  { rewrite (_getNextIndex_sign os props g' Hfin). unfold commits.
    rewrite Hcommit, Hi.
    apply gtb_zero_cases in Hpos as [E | (x & E & Hx)];
      [rewrite E in Hfin; discriminate Hfin|].
    rewrite E, (sign_pos x Hx). unfold of_Z. cbn [sub andb].
    rewrite Qcminus_of_Z_1, Hprev. reflexivity. }
  rewrite _finishGesture_calls, Hmoved, Hforward, Htarget, S3, C3. reflexivity.
Qed.

(** The rightward drag of 130 on the second of three pages, released at
    rest. *)
Lemma right_swipe_goes_back_one_page_witness :
  calls (exec (run ios (Sample.props_at 1)
                 [MoveShouldSet Sample.drag_right; Grant; Move Sample.drag_right;
                  Release Sample2.release_right])
              Sample2.mounted_second)
    = JumpToIndex (Fin (Qc_of_Z 1 - 1)%Qc)
        :: SetValue (Fin (Qc_of_Z 1) - dx Sample.drag_right / Fin (Qc_of_Z 320))%num
        :: StopAnimation :: calls Sample2.mounted_second.
Proof.
  apply (right_swipe_goes_back_one_page ios (Sample.props_at 1) Sample.drag_right
           Sample2.release_right Sample2.mounted_second (Qc_of_Z 1) (Qc_of_Z 320));
    try (vm_compute; reflexivity);
    try (repeat split; fail); discriminate.
Defined.

(** *** Snapping back *)

(** X14. A gesture end that finds the offset away from the current index
    requests the current index, and nothing else, whenever the release is
    below both thresholds or the session is not a horizontal move: the
    drag is undone. *)
Theorem short_or_vertical_drag_snaps_back (os : OS) (props : Props)
    (g : GestureState) (w : World) :
  neqb (_lastOffset (self w)) (index (navigationState props)) = true ->
  ((abs (dx g) >? swipeDistanceThreshold props)%num = false /\
   (abs (vx g) >? platformThreshold os props)%num = false) \/
  truthy (_isMoving (self w)) = false ->
  calls (exec (_finishGesture os props g) w)
    = JumpToIndex (index (navigationState props)) :: calls w.
Proof.
  intros Hne H. rewrite _finishGesture_calls, Hne. do 2 f_equal.
  destruct H as [[Hd Hv] | Hm].
  - rewrite _getNextIndex_unfold. unfold commits. rewrite Hd, Hv. cbn.
    destruct (truthy _ && _); reflexivity.
  - rewrite Hm. reflexivity.
Qed.

(** The drag of 130 let go at [dx = -50], [vx = -0.1]: below 120 and below
    0.25, so the first page is requested again. *)
Lemma short_or_vertical_drag_snaps_back_witness :
  calls (exec (_finishGesture ios (Sample.props_at 0) Sample2.release_short)
              Sample.dragging)
    = JumpToIndex (index (navigationState (Sample.props_at 0)))
        :: calls Sample.dragging.
Proof.
  apply (short_or_vertical_drag_snaps_back ios (Sample.props_at 0)
           Sample2.release_short Sample.dragging).
  - vm_compute. reflexivity.
  - left. split; vm_compute; reflexivity.
Defined.
(** *** Settling on the current index *)

(** X15. A settle to the current index for which the configurator returns no
    specification puts the component at rest, whatever the offset held and
    whatever [fromValue] is: the offset and its mirror hold the index, no
    animation is in flight, and a gesture end that follows requests
    nothing. *)
Theorem instant_settle_restores_rest (os : OS) (props : Props)
    (fromValue : number) (g : GestureState) (w : World) (i : Qc) :
  configuredSpec props fromValue (index (navigationState props)) = None ->
  index (navigationState props) = Fin i ->
  let w' := exec (_transitionTo props fromValue (index (navigationState props))) w in
  av_value (offset w') = index (navigationState props) /\
  av_animation (offset w') = None /\
  _lastOffset (self w') = index (navigationState props) /\
  calls (exec (_finishGesture os props g) w') = calls w'.
Proof.
  intros Hspec Hi. cbn zeta. rewrite _transitionTo_exec, Hspec.
  repeat split.
  rewrite _finishGesture_calls. cbn. rewrite Hi. unfold neqb.
  rewrite eqb_Fin_refl. reflexivity.
Qed.

(** A drag left the offset at [13/32]; the settle brings it back to 0. *)
Lemma instant_settle_restores_rest_witness :
  av_value (offset (exec (_transitionTo (Sample.props_instant 0) (of_Z 0)
                            (index (navigationState (Sample.props_instant 0))))
                         (Sample.drag_session (Sample.props_instant 0))))
    = index (navigationState (Sample.props_instant 0)).
Proof.
  apply (instant_settle_restores_rest ios (Sample.props_instant 0) (of_Z 0)
           Sample.tap (Sample.drag_session (Sample.props_instant 0)) (Qc_of_Z 0));
    reflexivity.
Defined.
